(** * pgi.overrides: a shallow embedding of [pgi/overrides/__init__.py]

    The development follows the source file top to bottom:

    - Python values, exceptions and warnings as the module uses them;
    - [strip_boolean_result], the wrapper that strips a success flag;
    - [deprecated_init], the initializer wrapper for legacy call styles;
    - the interpreter state the loader touches ([sys.modules], the
      [_deprecated_attrs] registry, the objects it creates, the warnings
      it emits) and the attribute protocol of [OverridesProxyModule] and
      [_DeprecatedAttribute];
    - [load], and the theorems about it. *)

From stdpp Require Import gmap strings list sorting pretty.

Local Open Scope Z_scope.
Local Set Warnings "-register-all".

(** ** Python values *)

(** Object identity is a heap address. *)
Abbreviation loc := positive.

Inductive pyval : Type :=
| VNone
| VBool (b : bool)
| VInt (z : Z)
| VStr (s : string)
| VTuple (items : list pyval)
| VList (items : list pyval)
| VObj (l : loc).

(** Truth value testing, as [if x:] does it. *)
Definition truthy (v : pyval) : bool :=
  match v with
  | VNone => false
  | VBool b => b
  | VInt z => negb (z =? 0)
  | VStr s => negb (String.eqb s EmptyString)
  | VTuple items | VList items => negb (Nat.eqb (length items) 0)
  | VObj _ => true
  end.

(** [a or b] *)
Definition py_or (a b : pyval) : pyval := if truthy a then a else b.

(** ** Exceptions *)

Inductive ExcClass : Type :=
| ImportError
| AttributeError
| AssertionError
| IndexError
| TypeError
| KeyError
| RecursionError
| OtherException (name : string)
| OtherBaseException (name : string).

(** [isinstance(err, Exception)]: everything but the exits and interrupts
    that derive from [BaseException] directly. *)
Definition is_Exception (c : ExcClass) : bool :=
  match c with
  | OtherBaseException _ => false
  | _ => true
  end.

Record exn : Type := Exn { exn_class : ExcClass; exn_args : list pyval }.

(** The result of evaluating a Python expression or call. *)
Inductive Outcome (A : Type) : Type :=
| Ret (a : A)
| Raise (e : exn).
Arguments Ret {A} a.
Arguments Raise {A} e.


(** ** Sequence primitives used by the wrappers *)

Definition chars (s : string) : list pyval :=
  (fun a => VStr (String a EmptyString)) <$> String.list_ascii_of_string s.

(** [ret[i]] for a non-negative literal index. *)
Definition py_getitem (v : pyval) (i : nat) : Outcome pyval :=
  match v with
  | VTuple items | VList items =>
      match items !! i with
      | Some x => Ret x
      | None => Raise (Exn IndexError [VStr "index out of range"])
      end
  | VStr s =>
      match chars s !! i with
      | Some x => Ret x
      | None => Raise (Exn IndexError [VStr "string index out of range"])
      end
  | _ => Raise (Exn TypeError [VStr "object is not subscriptable"])
  end.

(** [len(ret)] *)
Definition py_len (v : pyval) : Outcome nat :=
  match v with
  | VTuple items | VList items => Ret (length items)
  | VStr s => Ret (String.length s)
  | _ => Raise (Exn TypeError [VStr "object has no len()"])
  end.

(** [ret[1:]]: the slice keeps the type of the sequence. *)
Definition py_slice_from1 (v : pyval) : Outcome pyval :=
  match v with
  | VTuple items => Ret (VTuple (drop 1 items))
  | VList items => Ret (VList (drop 1 items))
  | VStr s => Ret (VStr (String.substring 1 (String.length s - 1) s))
  | _ => Raise (Exn TypeError [VStr "object is not subscriptable"])
  end.

(** ** strip_boolean_result *)

Section strip_boolean_result.
(** The positional and keyword arguments are handed to [method]
    untouched, so their type is left open. *)
Context {Args : Type}.

(** [exc_type=None, exc_str=None, fail_ret=None] *)
Definition default_exc_type : option ExcClass := None.
Definition default_exc_str : pyval := VNone.
Definition default_fail_ret : pyval := VNone.

Definition strip_boolean_result
    (method : Args → Outcome pyval)
    (exc_type : option ExcClass) (exc_str fail_ret : pyval)
    (args : Args) : Outcome pyval :=
  match method args with
  | Raise e => Raise e
  | Ret ret =>
      match py_getitem ret 0 with
      | Raise e => Raise e
      | Ret flag =>
          if truthy flag then
            match py_len ret with
            | Raise e => Raise e
            | Ret n =>
                if Nat.eqb n 2 then py_getitem ret 1
                else py_slice_from1 ret
            end
          else
            match exc_type with
            | Some cls => Raise (Exn cls [py_or exc_str (VStr "call failed")])
            | None => Ret fail_ret
            end
      end
  end.
End strip_boolean_result.

(** ** Dictionaries with insertion order

    [dict] keeps Python's behaviour for string keys: assigning to a key
    that is present keeps its position, a new key goes last, and
    iteration follows the list. *)

Section dict.
Context {V : Type}.

Fixpoint dict_get (d : list (string * V)) (k : string) : option V :=
  match d with
  | [] => None
  | (k', v) :: d' => if decide (k = k') then Some v else dict_get d' k
  end.

(** [k in d] *)
Definition dict_mem (d : list (string * V)) (k : string) : bool :=
  match dict_get d k with Some _ => true | None => false end.

(** [d[k] = v] *)
Fixpoint dict_set (d : list (string * V)) (k : string) (v : V)
    : list (string * V) :=
  match d with
  | [] => [(k, v)]
  | (k', v') :: d' =>
      if decide (k = k') then (k, v) :: d' else (k', v') :: dict_set d' k v
  end.

(** [d.pop(k)], the dictionary that is left. *)
Fixpoint dict_pop (d : list (string * V)) (k : string) : list (string * V) :=
  match d with
  | [] => []
  | (k', v') :: d' =>
      if decide (k = k') then d' else (k', v') :: dict_pop d' k
  end.

(** [d.update(other)] *)
Definition dict_update (d other : list (string * V)) : list (string * V) :=
  foldl (λ acc kv, dict_set acc kv.1 kv.2) d other.

(** [dict(pairs)] *)
Definition dict_of_pairs (pairs : list (string * V)) : list (string * V) :=
  dict_update [] pairs.
End dict.

(** ** Warnings *)

Record Warning : Type := Warn {
  w_message : string;
  w_category : string;
  w_stacklevel : Z
}.

Definition PyGIDeprecationWarning : string := "PyGIDeprecationWarning".

(** [sorted(names)] on strings: code point order. *)
Definition sorted (names : list string) : list string :=
  merge_sort String.le names.

(** [sep.join(parts)] *)
Definition join (sep : string) (parts : list string) : string :=
  String.concat sep parts.

(** ** deprecated_init *)

(** What the wrapped initializer is called with. *)
Record InitCall : Type := {
  call_positional : list pyval;
  call_keywords : list (string * pyval)
}.

Section deprecated_init.
(** [str()] of a container or of an object is the interpreter's
    business; scalars are rendered below. *)
Variable str_other : pyval → string.

(** [%s] formatting of a value. *)
Definition py_str (v : pyval) : string :=
  match v with
  | VNone => "None"
  | VBool true => "True"
  | VBool false => "False"
  | VInt z => pretty z
  | VStr s => s
  | _ => str_other v
  end.

Definition initializer_doc : string :=
  "See: https://wiki.gnome.org/PyGObject/InitializerDeprecations".

(** The messages put their names between double quotes. *)
Definition quoted (s : string) : string :=
  String (Ascii.ascii_of_nat 34) (s +:+ String (Ascii.ascii_of_nat 34) EmptyString).

Definition positional_message (names : list string) : string :=
  "Using positional arguments with the GObject constructor has been deprecated. "
  +:+ "Please specify keyword(s) for " +:+ quoted (join ", " names)
  +:+ " or use a class specific constructor. " +:+ initializer_doc.

Definition alias_message (aliases keys : list string) : string :=
  "The keyword(s) " +:+ quoted (join ", " aliases)
  +:+ " have been deprecated in favor of " +:+ quoted (join ", " keys)
  +:+ " respectively. " +:+ initializer_doc.

Definition defaults_message (assignments : list string) : string :=
  "Initializer is relying on deprecated non-standard "
  +:+ "defaults. Please update to explicitly use: "
  +:+ join ", " assignments +:+ " " +:+ initializer_doc.

Context {R : Type}.
Variable super_init_func : InitCall → R.
Variable arg_names : list string.
Variable ignore : list string.
Variable deprecated_aliases : list (string * string).
Variable deprecated_defaults : list (string * pyval).
Variable category : string.
Variable stacklevel : Z.

(** One turn of [for key, alias in deprecated_aliases.items()]. *)
Definition alias_step (st : list (string * pyval) * list string)
    (entry : string * string) : list (string * pyval) * list string :=
  let '(new_kwargs, aliases_used) := st in
  let '(key, alias) := entry in
  match dict_get new_kwargs alias with
  | Some v => (dict_set (dict_pop new_kwargs alias) key v, aliases_used ++ [key])
  | None => (new_kwargs, aliases_used)
  end.

(** One turn of [for key, value in deprecated_defaults.items()]. *)
Definition default_step (st : list (string * pyval) * list string)
    (entry : string * pyval) : list (string * pyval) * list string :=
  let '(new_kwargs, defaults_used) := st in
  let '(key, value) := entry in
  if dict_mem new_kwargs key then (new_kwargs, defaults_used)
  else (dict_set new_kwargs key (default value (dict_get deprecated_defaults key)),
        defaults_used ++ [key]).

(** One turn of [for key in ignore]. *)
Definition ignore_step (new_kwargs : list (string * pyval)) (key : string)
    : list (string * pyval) :=
  if dict_mem new_kwargs key then dict_pop new_kwargs key else new_kwargs.

(** The keywords after the positional arguments have been named and
    the explicit keywords merged over them, with the warning for
    positional use when there was any. *)
Definition merge_positional (args : list pyval) (kwargs : list (string * pyval))
    : list Warning * list (string * pyval) :=
  let '(ws, new_kwargs) :=
    match args with
    | [] => ([], [])
    | _ :: _ =>
        ([Warn (positional_message (take (length args) arg_names))
               category stacklevel],
         dict_of_pairs (zip arg_names args))
    end in
  (ws, dict_update new_kwargs kwargs).

(** [new_init(self, *args, **kwargs)]: the warnings in the order they
    are emitted, and the result of the wrapped initializer. *)
Definition new_init (self : pyval) (args : list pyval)
    (kwargs : list (string * pyval)) : list Warning * R :=
  let '(ws1, new_kwargs) := merge_positional args kwargs in
  let '(new_kwargs, aliases_used) :=
    foldl alias_step (new_kwargs, []) deprecated_aliases in
  let ws2 :=
    match aliases_used with
    | [] => []
    | _ :: _ =>
        [Warn (alias_message
                 ((λ k, default EmptyString (dict_get deprecated_aliases k))
                    <$> sorted aliases_used)
                 (sorted aliases_used))
              category stacklevel]
    end in
  let '(new_kwargs, defaults_used) :=
    foldl default_step (new_kwargs, []) deprecated_defaults in
  let ws3 :=
    match defaults_used with
    | [] => []
    | _ :: _ =>
        [Warn (defaults_message
                 ((λ k, k +:+ "=" +:+
                        py_str (default VNone (dict_get deprecated_defaults k)))
                    <$> sorted defaults_used))
              category stacklevel]
    end in
  let new_kwargs := foldl ignore_step new_kwargs ignore in
  (ws1 ++ ws2 ++ ws3,
   super_init_func {| call_positional := [self]; call_keywords := new_kwargs |}).
End deprecated_init.

(** The defaults of [deprecated_init]'s optional parameters. *)
Definition deprecated_init {R} (str_other : pyval → string)
    (super_init_func : InitCall → R) (arg_names : list string)
    (deprecated_aliases : list (string * string))
    (deprecated_defaults : list (string * pyval)) :=
  new_init str_other super_init_func arg_names [] deprecated_aliases
    deprecated_defaults PyGIDeprecationWarning 2.


(** ** Objects and interpreter state *)

(** [_DeprecatedAttribute]: the instance fields set by [__init__].
    [_warning] is the [PyGIDeprecationWarning] instance built there. *)
Record DeprecatedAttribute : Type := {
  _attr : string;
  _value : pyval;
  _warning : Warning
}.

(** [_DeprecatedAttribute.__init__(self, namespace, attr, value, replacement)] *)
Definition DeprecatedAttribute_init (namespace attr : string) (value : pyval)
    (replacement : string) : DeprecatedAttribute :=
  {| _attr := attr;
     _value := value;
     _warning :=
       Warn (namespace +:+ "." +:+ attr +:+ " is deprecated; use "
               +:+ replacement +:+ " instead")
            PyGIDeprecationWarning 2 |}.

(** What a class dictionary holds under a name. *)
Inductive ClassAttr : Type :=
| CPlain (v : pyval)
| CDeprecated (d : DeprecatedAttribute).

Inductive object : Type :=
(** an object of the outside world (an introspected module, a class or
    function of an override): the attributes [getattr] finds on it and
    the names [dir] lists for it *)
| OForeign (attrs : gmap string pyval) (names : list string)
(** a class made by [load]: its name and its own [__dict__] *)
| OClass (name : string) (dict : gmap string ClassAttr)
(** an instance of such a class: [__class__] and [__dict__] *)
| OProxy (cls : loc) (dict : gmap string pyval).

Record World : Type := {
  sys_modules : gmap string pyval;
  _deprecated_attrs : gmap string (list (string * string));
  heap : gmap loc object;
  warnings_log : list Warning;
  closed_files : list nat
}.

Definition set_sys_modules (f : gmap string pyval → gmap string pyval)
    (w : World) : World :=
  {| sys_modules := f (sys_modules w);
     _deprecated_attrs := _deprecated_attrs w;
     heap := heap w;
     warnings_log := warnings_log w;
     closed_files := closed_files w |}.

Definition set_deprecated_attrs
    (f : gmap string (list (string * string)) → gmap string (list (string * string)))
    (w : World) : World :=
  {| sys_modules := sys_modules w;
     _deprecated_attrs := f (_deprecated_attrs w);
     heap := heap w;
     warnings_log := warnings_log w;
     closed_files := closed_files w |}.

Definition set_heap (f : gmap loc object → gmap loc object) (w : World) : World :=
  {| sys_modules := sys_modules w;
     _deprecated_attrs := _deprecated_attrs w;
     heap := f (heap w);
     warnings_log := warnings_log w;
     closed_files := closed_files w |}.

Definition set_warnings_log (f : list Warning → list Warning) (w : World) : World :=
  {| sys_modules := sys_modules w;
     _deprecated_attrs := _deprecated_attrs w;
     heap := heap w;
     warnings_log := f (warnings_log w);
     closed_files := closed_files w |}.

Definition set_closed_files (f : list nat → list nat) (w : World) : World :=
  {| sys_modules := sys_modules w;
     _deprecated_attrs := _deprecated_attrs w;
     heap := heap w;
     warnings_log := warnings_log w;
     closed_files := f (closed_files w) |}.

(** ** Statements: state passing with exceptions

    A raised exception keeps the state changes made before it. *)

Definition M (A : Type) : Type := World → Outcome A * World.

Definition ret {A} (a : A) : M A := λ w, (Ret a, w).

Definition raise {A} (e : exn) : M A := λ w, (Raise e, w).

Definition bind {A B} (m : M A) (k : A → M B) : M B :=
  λ w, match m w with
       | (Ret a, w') => k a w'
       | (Raise e, w') => (Raise e, w')
       end.

Declare Scope py_scope.
Delimit Scope py_scope with py.
Notation "x ←' m ; k" := (bind m (λ x, k))
  (at level 100, m at next level, k at level 200, right associativity,
   format "x  ←'  m ;  '/' k") : py_scope.
Notation "m ;; k" := (bind m (λ _, k))
  (at level 100, k at level 200, right associativity) : py_scope.
Local Open Scope py_scope.

(** [try: body except cls: handler]: [handles] picks the exceptions the
    clause catches. *)
Definition try_except {A} (body : M A) (handles : exn → bool)
    (handler : exn → M A) : M A :=
  λ w, match body w with
       | (Ret a, w') => (Ret a, w')
       | (Raise e, w') => if handles e then handler e w' else (Raise e, w')
       end.

Definition modify (f : World → World) : M unit := λ w, (Ret tt, f w).

Definition gets {A} (f : World → A) : M A := λ w, (Ret (f w), w).

(** [for x in xs: body x] *)
Fixpoint for_each {A} (xs : list A) (body : A → M unit) : M unit :=
  match xs with
  | [] => ret tt
  | x :: xs' => body x;; for_each xs' body
  end.

(** [warnings.warn(...)] under the default filters: the warning is
    reported and execution goes on. *)
Definition warn (wn : Warning) : M unit :=
  modify (set_warnings_log (λ log, log ++ [wn])).

(** A reference the heap does not hold; no run of the interpreter gets
    here, the case only makes the functions below total. *)
Definition dangling : exn :=
  Exn (OtherException "SystemError") [VStr "dangling reference"].

Definition deref (l : loc) : M object :=
  λ w, match heap w !! l with
       | Some o => (Ret o, w)
       | None => (Raise dangling, w)
       end.

Definition store (l : loc) (o : object) : M unit :=
  modify (set_heap (insert l o)).

(** A new object gets an address no live object has. *)
Definition alloc (o : object) : M loc :=
  λ w, let l := fresh (dom (heap w)) in (Ret l, set_heap (insert l o) w).

Definition attribute_error {A} (name : string) : M A :=
  raise (Exn AttributeError [VStr name]).

Definition is_AttributeError (e : exn) : bool :=
  match exn_class e with AttributeError => true | _ => false end.

Definition recursion_error {A} : M A :=
  raise (Exn RecursionError [VStr "maximum recursion depth exceeded"]).

(** The interpreter's default [sys.getrecursionlimit()]. *)
Definition recursion_limit : nat := 1000.

(** [s.split(".")[-1]] *)
Fixpoint last_segment_from (acc s : string) : string :=
  match s with
  | EmptyString => acc
  | String c s' =>
      if Ascii.eqb c (Ascii.ascii_of_nat 46) then last_segment_from EmptyString s'
      else last_segment_from (acc +:+ String c EmptyString) s'
  end.

Definition last_segment (s : string) : string := last_segment_from EmptyString s.

(** [hash(v)] succeeds: lists are unhashable, and so is a tuple that
    holds one. *)
Fixpoint hashable (v : pyval) : bool :=
  match v with
  | VList _ => false
  | VTuple items => forallb hashable items
  | _ => true
  end.

(** [for x in v]: the items a loop over [v] visits. *)
Definition py_iter (v : pyval) : Outcome (list pyval) :=
  match v with
  | VTuple items | VList items => Ret items
  | VStr s => Ret (chars s)
  | _ => Raise (Exn TypeError [VStr "object is not iterable"])
  end.

Definition lift {A} (o : Outcome A) : M A := λ w, (o, w).

(** ** The attribute protocol *)

(** What evaluating an override module does: the state changes its body
    makes (registrations through [deprecated_attr] and [override], whatever
    else it runs) and how it ends, with the module's [vars()] or with the
    exception that escaped. *)
Record UnitRun : Type := {
  run_effect : World → World;
  run_result : Outcome (gmap string pyval)
}.

Section overrides.
(** The attributes every proxy class inherits from
    [OverridesProxyModule], [types.ModuleType] and [object]: methods
    and other values that are not data descriptors. *)
Variable base_attrs : gmap string pyval.

(** [const.PREFIX], the package names a namespace is importable under. *)
Variable PREFIX : list string.

(** [__import__(name, fromlist=[...])] followed by [vars()]. *)
Variable import_override : string → UnitRun.

(** [imp.find_module(namespace, paths)] in the directory of this file:
    [None] when it raises [ImportError], else the file handle it
    opened, if any. *)
Variable find_module : string → option (option nat).

(** [_compat.reraise(tp, value, tb)]: the exception that call raises. *)
Variable reraise : ExcClass → exn → exn.

(** A class attribute with [__set__] or [__delete__] takes precedence
    over the instance [__dict__]. *)
Definition is_data_descriptor (a : option ClassAttr) : bool :=
  match a with
  | Some (CDeprecated _) => true
  | _ => false
  end.

(** Lookup of [name] along the MRO of a proxy class. *)
Definition class_lookup (dict : gmap string ClassAttr) (name : string)
    : option ClassAttr :=
  match dict !! name with
  | Some a => Some a
  | None => CPlain <$> base_attrs !! name
  end.

(** [type(instance)] *)
Definition py_type (instance : pyval) : M loc :=
  match instance with
  | VObj l =>
      ob ←' deref l;
      match ob with
      | OProxy cls _ => ret cls
      | _ => raise (Exn TypeError [VStr "type of this object is not modelled"])
      end
  | _ => raise (Exn TypeError [VStr "type of this object is not modelled"])
  end.

(** [delattr(cls, name)] on a class: only its own [__dict__] counts. *)
Definition type_delattr (cls : loc) (name : string) : M unit :=
  ob ←' deref cls;
  match ob with
  | OClass n dict =>
      match dict !! name with
      | Some _ => store cls (OClass n (delete name dict))
      | None => attribute_error name
      end
  | _ => raise dangling
  end.

(** [setattr(cls, name, a)] on a class. *)
Definition type_setattr (cls : loc) (name : string) (a : ClassAttr) : M unit :=
  ob ←' deref cls;
  match ob with
  | OClass n dict => store cls (OClass n (<[name:=a]> dict))
  | _ => raise dangling
  end.

(** [_DeprecatedAttribute.__get__(self, instance, owner)] *)
Definition DeprecatedAttribute_get (self : DeprecatedAttribute)
    (instance : option pyval) : M pyval :=
  match instance with
  | None => raise (Exn AttributeError [VStr (_attr self)])
  | Some _ => warn (_warning self);; ret (_value self)
  end.

(** [_DeprecatedAttribute.__set__(self, instance, value)] *)
Definition DeprecatedAttribute_set (setattr : pyval → string → pyval → M unit)
    (self : DeprecatedAttribute) (instance value : pyval) : M unit :=
  let attr := _attr self in
  t ←' py_type instance;
  type_delattr t attr;;
  setattr instance attr value.

(** [_DeprecatedAttribute.__delete__(self, instance)] *)
Definition DeprecatedAttribute_delete (self : DeprecatedAttribute)
    (instance : pyval) : M unit :=
  t ←' py_type instance;
  type_delattr t (_attr self).

(** [OverridesProxyModule.__getattr__(self, name)] *)
Definition OverridesProxyModule_getattr (getattr : pyval → string → M pyval)
    (self : pyval) (name : string) : M pyval :=
  m ←' getattr self "_introspection_module";
  getattr m name.

(** [getattr(o, name)].  On a proxy: a data descriptor of the class
    first, then the instance [__dict__], then a plain class attribute,
    then [__getattr__].  [depth] counts the frames left. *)
Fixpoint getattr_rec (depth : nat) (o : pyval) (name : string) : M pyval :=
  match depth with
  | O => recursion_error
  | S depth' =>
      match o with
      | VObj l =>
          ob ←' deref l;
          match ob with
          | OForeign attrs _ =>
              match attrs !! name with
              | Some v => ret v
              | None => attribute_error name
              end
          | OClass _ dict =>
              match class_lookup dict name with
              | Some (CPlain v) => ret v
              | Some (CDeprecated d) => DeprecatedAttribute_get d None
              | None => attribute_error name
              end
          | OProxy cls dict =>
              c ←' deref cls;
              match c with
              | OClass _ cdict =>
                  match class_lookup cdict name, dict !! name with
                  | Some (CDeprecated d), _ => DeprecatedAttribute_get d (Some o)
                  | _, Some v => ret v
                  | Some (CPlain v), None => ret v
                  | None, None =>
                      OverridesProxyModule_getattr (getattr_rec depth') o name
                  end
              | _ => raise dangling
              end
          end
      | _ => attribute_error name
      end
  end.

Definition getattr (o : pyval) (name : string) : M pyval :=
  getattr_rec recursion_limit o name.

(** [setattr(o, name, value)] *)
Fixpoint setattr_rec (depth : nat) (o : pyval) (name : string)
    (value : pyval) : M unit :=
  match depth with
  | O => recursion_error
  | S depth' =>
      match o with
      | VObj l =>
          ob ←' deref l;
          match ob with
          | OForeign attrs names => store l (OForeign (<[name:=value]> attrs) names)
          | OClass n dict => store l (OClass n (<[name:=CPlain value]> dict))
          | OProxy cls dict =>
              c ←' deref cls;
              match c with
              | OClass _ cdict =>
                  match class_lookup cdict name with
                  | Some (CDeprecated d) =>
                      DeprecatedAttribute_set (setattr_rec depth') d o value
                  | _ => store l (OProxy cls (<[name:=value]> dict))
                  end
              | _ => raise dangling
              end
          end
      | _ => attribute_error name
      end
  end.

Definition setattr (o : pyval) (name : string) (value : pyval) : M unit :=
  setattr_rec recursion_limit o name value.

(** [delattr(o, name)] *)
Definition delattr (o : pyval) (name : string) : M unit :=
  match o with
  | VObj l =>
      ob ←' deref l;
      match ob with
      | OForeign attrs names =>
          match attrs !! name with
          | Some _ => store l (OForeign (delete name attrs) names)
          | None => attribute_error name
          end
      | OClass _ _ => type_delattr l name
      | OProxy cls dict =>
          c ←' deref cls;
          match c with
          | OClass _ cdict =>
              match class_lookup cdict name, dict !! name with
              | Some (CDeprecated d), _ => DeprecatedAttribute_delete d o
              | _, Some _ => store l (OProxy cls (delete name dict))
              | _, None => attribute_error name
              end
          | _ => raise dangling
          end
      end
  | _ => attribute_error name
  end.

(** [dir(cls)] of a proxy class: its own names and the inherited ones. *)
Definition class_dir (cdict : gmap string ClassAttr) : list string :=
  sorted (elements (dom cdict ∪ dom base_attrs)).

(** [OverridesProxyModule.__dir__(self)] *)
Definition OverridesProxyModule_dir (dir : pyval → M (list string))
    (self : loc) : M (list string) :=
  ob ←' deref self;
  match ob with
  | OProxy cls dict =>
      class_names ←' dir (VObj cls);
      let result : gset string := list_to_set class_names in
      let result := result ∪ dom dict in
      m ←' getattr (VObj self) "_introspection_module";
      names ←' dir m;
      let result := result ∪ list_to_set names in
      ret (sorted (elements result))
  | _ => raise dangling
  end.

(** The built-in [dir(o)]: the sorted result of [__dir__].  Values
    without a heap object are the built-in scalars and sequences, whose
    attributes this development leaves out. *)
Fixpoint dir_rec (depth : nat) (o : pyval) : M (list string) :=
  match depth with
  | O => recursion_error
  | S depth' =>
      match o with
      | VObj l =>
          ob ←' deref l;
          match ob with
          | OForeign _ names => ret (sorted names)
          | OClass _ cdict => ret (class_dir cdict)
          | OProxy _ _ =>
              names ←' OverridesProxyModule_dir (dir_rec depth') l;
              ret (sorted names)
          end
      | _ => ret []
      end
  end.

Definition py_dir (o : pyval) : M (list string) := dir_rec recursion_limit o.

(** [proxy.__dir__()] *)
Definition proxy_dir (self : loc) : M (list string) :=
  OverridesProxyModule_dir py_dir self.

(** ** OverridesProxyModule *)

(** The entries [types.ModuleType.__init__(self, name)] puts in the
    instance [__dict__] on Python 3: the name, and [None] for the
    docstring, the package, the loader and the spec. *)
Definition module_dict (name : pyval) (dict : gmap string pyval)
    : gmap string pyval :=
  <["__spec__":=VNone]>
    (<["__loader__":=VNone]>
       (<["__package__":=VNone]>
          (<["__doc__":=VNone]> (<["__name__":=name]> dict)))).

(** [types.ModuleType.__init__(self, name)].  The [__name__] of a module
    object is a string; the constructor's check of that is not part of
    the model, which stores the name as it is. *)
Definition ModuleType_init (self : loc) (name : pyval) : M unit :=
  ob ←' deref self;
  match ob with
  | OProxy cls dict => store self (OProxy cls (module_dict name dict))
  | _ => raise dangling
  end.

(** [OverridesProxyModule.__init__(self, introspection_module)] *)
Definition OverridesProxyModule_init (self : loc)
    (introspection_module : pyval) : M unit :=
  name ←' getattr introspection_module "__name__";
  ModuleType_init self name;;
  setattr (VObj self) "_introspection_module" introspection_module.

(** [proxy_type(module)] *)
Definition new_proxy (proxy_type : loc) (module : pyval) : M loc :=
  self ←' alloc (OProxy proxy_type ∅);
  OverridesProxyModule_init self module;;
  ret self.

(** [__name__] of this module. *)
Definition this_module : string := "pgi.overrides".

(** [type(namespace + "ProxyModule", (OverridesProxyModule, ), {})] *)
Definition new_proxy_type (namespace : string) : M loc :=
  alloc (OClass (namespace +:+ "ProxyModule")
           (<["__module__":=CPlain (VStr this_module)]>
              (<["__doc__":=CPlain VNone]> ∅))).

(** [get_introspection_module(namespace)] *)
Definition get_introspection_module (namespace : string) : M pyval :=
  mods ←' gets sys_modules;
  match mods !! ("pgi.repository." +:+ namespace) with
  | None => raise (Exn KeyError [VStr ("pgi.repository." +:+ namespace)])
  | Some mod_ =>
      try_except (getattr mod_ "_introspection_module") is_AttributeError
        (λ _, ret mod_)
  end.

(** ** load *)

(** [sys.modules[prefix + "." + namespace] = target] for every prefix. *)
Definition register_aliases (namespace : string) (target : pyval) : M unit :=
  for_each PREFIX (λ prefix,
    modify (set_sys_modules (<[prefix +:+ "." +:+ namespace := target]>))).

(** [override_vars.get(var)]: the keys of a module's [vars()] are
    strings, so no other hashable value is among them. *)
Definition vars_get (override_vars : gmap string pyval) (var : pyval)
    : Outcome pyval :=
  match var with
  | VStr s => Ret (default VNone (override_vars !! s))
  | _ =>
      if hashable var then Ret VNone
      else Raise (Exn TypeError [VStr "unhashable type"])
  end.

(** The [try] block that gives a new class a proper [__module__]. *)
Definition normalize_module (namespace : string) (item : pyval) : M unit :=
  try_except
    (m ←' getattr item "__module__";
     match m with
     | VStr s =>
         if String.eqb (last_segment s) namespace
         then setattr item "__module__" (VStr namespace)
         else ret tt
     | _ => attribute_error "split"
     end)
    is_AttributeError
    (λ _, ret tt).

(** The body of [for var in override_all]. *)
Definition copy_export (namespace : string) (proxy : loc)
    (override_vars : gmap string pyval) (var : pyval) : M unit :=
  item ←' lift (vars_get override_vars var);
  match item with
  | VNone => raise (Exn AssertionError [])
  | _ =>
      normalize_module namespace item;;
      match var with
      | VStr s => setattr (VObj proxy) s item
      | _ => raise (Exn TypeError [VStr "attribute name must be string"])
      end
  end.

Definition missing_deprecated (attr : string) : exn :=
  Exn AssertionError
    [VStr (attr +:+ " was set deprecated but wasn't added to __all__")].

(** The body of [for attr, replacement in _deprecated_attrs.pop(...)]. *)
Definition install_deprecated (namespace : string) (proxy proxy_type : loc)
    (entry : string * string) : M unit :=
  let '(attr, replacement) := entry in
  value ←' try_except (getattr (VObj proxy) attr) is_AttributeError
             (λ _, raise (missing_deprecated attr));
  delattr (VObj proxy) attr;;
  let deprecated_attr :=
    DeprecatedAttribute_init namespace attr value replacement in
  type_setattr proxy_type attr (CDeprecated deprecated_attr).

(** [_deprecated_attrs.pop(namespace, [])] *)
Definition pop_deprecated (namespace : string) : M (list (string * string)) :=
  λ w, (Ret (default [] (_deprecated_attrs w !! namespace)),
        set_deprecated_attrs (delete namespace) w).

(** The [else] branch of [load]: the override module was imported. *)
Definition merge_override (namespace : string) (proxy proxy_type : loc)
    (override_vars : gmap string pyval) : M pyval :=
  let override_all :=
    py_or (default VNone (override_vars !! "__all__")) (VList []) in
  exports ←' lift (py_iter override_all);
  for_each exports (copy_export namespace proxy override_vars);;
  entries ←' pop_deprecated namespace;
  for_each entries (install_deprecated namespace proxy proxy_type);;
  ret (VObj proxy).

(** The [except Exception as err] branch of [load]. *)
Definition import_failed (namespace : string) (module : pyval) (err : exn)
    : M pyval :=
  match find_module namespace with
  | None =>
      register_aliases namespace module;;
      ret module
  | Some fp =>
      match fp with
      | Some f => modify (set_closed_files (λ fs, fs ++ [f]))
      | None => ret tt
      end;;
      raise (reraise ImportError err)
  end.

(** [__import__(name, fromlist=[...])] and [vars(override_module)]. *)
Definition import_vars (name : string) : M (gmap string pyval) :=
  λ w, (run_result (import_override name), run_effect (import_override name) w).

(** The state [load] imports the override in: the proxy class and the
    proxy exist and every alias names the proxy. *)
Definition load_prepare (namespace : string) (module : pyval) : M (loc * loc) :=
  proxy_type ←' new_proxy_type namespace;
  proxy ←' new_proxy proxy_type module;
  register_aliases namespace (VObj proxy);;
  ret (proxy_type, proxy).

Definition load (namespace : string) (module : pyval) : M pyval :=
  pp ←' load_prepare namespace module;
  let '(proxy_type, proxy) := pp in
  let name := this_module +:+ "." +:+ namespace in
  λ w, match import_vars name w with
       | (Raise err, w') =>
           if is_Exception (exn_class err)
           then import_failed namespace module err w'
           else (Raise err, w')
       | (Ret override_vars, w') =>
           merge_override namespace proxy proxy_type override_vars w'
       end.

(** [deprecated_attr(namespace, attr, replacement)] *)
Definition deprecated_attr (namespace attr replacement : string) : M unit :=
  modify (set_deprecated_attrs (λ reg,
    <[namespace := default [] (reg !! namespace) ++ [(attr, replacement)]]> reg)).
End overrides.

(** Modelled from the spec: [_compat.reraise] is not part of the source
    tree.  The specification has a failure of the override module reach
    the caller of [load] unchanged, so the call raises the value it is
    given, whatever the class named beside it. *)
Definition spec_reraise (tp : ExcClass) (value : exn) : exn := value.

(** ** A small installation to run the loader on

    One introspected module, [Gtk], with an override module that exports
    a class and a deprecated constant; an override module, [Broken], that
    fails while it is evaluated; and nothing for any other namespace. *)
Module Sample.
Definition PREFIX : list string := ["pgi.repository"; "gi.repository"].

Definition base_attrs : gmap string pyval :=
  <["__repr__":=VStr "<method __repr__>"]>
    (<["__dir__":=VStr "<method __dir__>"]>
       (<["__getattr__":=VStr "<method __getattr__>"]>
          (<["__init__":=VStr "<method __init__>"]> ∅))).

(** Addresses of the introspected module and of the override's class. *)
Definition gtk : loc := 1%positive.
Definition window_class : loc := 10%positive.

Definition gtk_names : list string :=
  ["main"; "Window"; "OLD_CONST"; "__name__"].

Definition world0 : World :=
  {| sys_modules := ∅;
     _deprecated_attrs := ∅;
     heap :=
       <[gtk := OForeign
                  (<["__name__":=VStr "Gtk"]>
                     (<["main":=VInt 7]>
                        (<["Window":=VInt 0]> (<["OLD_CONST":=VInt 41]> ∅))))
                  gtk_names]> ∅;
     warnings_log := [];
     closed_files := [] |}.

Definition gtk_override_body : M unit :=
  store window_class
    (OForeign (<["__module__":=VStr "pgi.overrides.Gtk"]> ∅) ["__module__"]);;
  deprecated_attr "Gtk" "OLD_CONST" "Gtk.Const.NEW".

Definition gtk_override_vars : gmap string pyval :=
  <["__all__":=VList [VStr "Window"; VStr "OLD_CONST"]]>
    (<["Window":=VObj window_class]> (<["OLD_CONST":=VInt 42]> ∅)).

Definition value_error : exn :=
  Exn (OtherException "ValueError") [VStr "bad override"].

Definition import_error (name : string) : exn :=
  Exn ImportError [VStr ("No module named " +:+ name)].

(** [Bad] exports a name it does not define. *)
Definition bad_override_vars : gmap string pyval :=
  <["__all__":=VList [VStr "Foo"; VStr "Missing"]]> (<["Foo":=VInt 1]> ∅).

(** [Stale] marks a name deprecated that it does not export and that the
    introspected module does not have either. *)
Definition stale_override_vars : gmap string pyval :=
  <["__all__":=VList [VStr "Foo"]]> (<["Foo":=VInt 1]> ∅).

Definition import_override (name : string) : UnitRun :=
  if String.eqb name "pgi.overrides.Gtk" then
    {| run_effect := λ w, (gtk_override_body w).2;
       run_result := Ret gtk_override_vars |}
  else if String.eqb name "pgi.overrides.Broken" then
    {| run_effect := λ w, w; run_result := Raise value_error |}
  else if String.eqb name "pgi.overrides.Bad" then
    {| run_effect := λ w, w; run_result := Ret bad_override_vars |}
  else if String.eqb name "pgi.overrides.Stale" then
    {| run_effect := λ w, (deprecated_attr "Stale" "GONE" "Stale.NEW" w).2;
       run_result := Ret stale_override_vars |}
  else
    {| run_effect := λ w, w; run_result := Raise (import_error name) |}.

Definition find_module (namespace : string) : option (option nat) :=
  if String.eqb namespace "Gtk" then Some (Some 3%nat)
  else if String.eqb namespace "Broken" then Some (Some 4%nat)
  else if String.eqb namespace "Bad" then Some (Some 5%nat)
  else if String.eqb namespace "Stale" then Some (Some 6%nat)
  else None.

Definition load : string → pyval → M pyval :=
  load base_attrs PREFIX import_override find_module spec_reraise.

(** The state after [load("Gtk", gtk)]; the proxy it returned and the
    class of that proxy. *)
Definition loaded : World := (load "Gtk" (VObj gtk) world0).2.
Definition proxy : loc := 3%positive.
Definition proxy_type : loc := 2%positive.
End Sample.

(** The instance [__dict__] of the proxy at [l], and the [__dict__] of
    the class at [l]. *)
Definition instance_dict (w : World) (l : loc) : gmap string pyval :=
  match heap w !! l with
  | Some (OProxy _ dict) => dict
  | _ => ∅
  end.

Definition class_dict (w : World) (l : loc) : gmap string ClassAttr :=
  match heap w !! l with
  | Some (OClass _ dict) => dict
  | _ => ∅
  end.

Definition foreign_attrs (w : World) (l : loc) : gmap string pyval :=
  match heap w !! l with
  | Some (OForeign attrs _) => attrs
  | _ => ∅
  end.

(** ** Statements that leave the deprecation registry alone *)

Definition keeps_registry {A} (m : M A) : Prop :=
  ∀ w, _deprecated_attrs (m w).2 = _deprecated_attrs w.

Create HintDb registry discriminated.

(** ** Statements that only report warnings *)

Definition reads_only {A} (m : M A) : Prop :=
  ∀ w, ∃ ws, (m w).2 = set_warnings_log (λ log, log ++ ws) w.

(** A name without a dot in it. *)
Fixpoint dotless (s : string) : bool :=
  match s with
  | EmptyString => true
  | String c s' => negb (Ascii.eqb c (Ascii.ascii_of_nat 46)) && dotless s'
  end.


(** ** The [override] decorator *)

(** What [override] returns: the class it was given, renamed, or the
    decorator [wrap] for a function. *)
Inductive Overridden : Type :=
| Klass (klass : pyval)
| Wrap (wrap : pyval → M pyval).

Section decorators.
Variable base_attrs : gmap string pyval.
Variable PREFIX : list string.
(** [isinstance(v, types.FunctionType)] *)
Variable is_function : pyval → bool.

(** The inner [wrap(wrapped)] of [override]. *)
Definition override_wrap (module klass wrapped : pyval) : M pyval :=
  n ←' getattr base_attrs klass "__name__";
  match n with
  | VStr name => setattr base_attrs module name wrapped;; ret wrapped
  | _ => raise (Exn TypeError [VStr "attribute name must be string"])
  end.

(** [override(klass)] *)
Definition override (klass : pyval) : M Overridden :=
  m ←' getattr base_attrs klass "__module__";
  match m with
  | VStr s =>
      let namespace := last_segment s in
      match last PREFIX with
      | None => raise (Exn IndexError [VStr "index out of range"])
      | Some prefix =>
          let mod_name := prefix +:+ "." +:+ namespace in
          mods ←' gets sys_modules;
          match mods !! mod_name with
          | None => raise (Exn KeyError [VStr mod_name])
          | Some module =>
              if is_function klass then ret (Wrap (override_wrap module klass))
              else
                mro ←' getattr base_attrs klass "__mro__";
                old_klass ←' lift (py_getitem mro 1);
                n ←' getattr base_attrs old_klass "__name__";
                match n with
                | VStr name =>
                    setattr base_attrs klass "__name__" n;;
                    old_module ←' getattr base_attrs old_klass "__module__";
                    setattr base_attrs klass "__module__" old_module;;
                    setattr base_attrs module name klass;;
                    ret (Klass klass)
                | _ => raise (Exn TypeError [VStr "__name__ must be a string"])
                end
          end
      end
  | _ => attribute_error "rsplit"
  end.
End decorators.

(** A class and a function of an override module for [Gtk], in the state
    [load] has prepared for the import. *)
Module SampleOverride.
Definition old_window : loc := 20%positive.
Definition new_window : loc := 21%positive.
Definition main_function : loc := 22%positive.

Definition is_function (v : pyval) : bool :=
  match v with
  | VObj l => bool_decide (l = main_function)
  | _ => false
  end.

Definition prepared : World :=
  set_heap
    (λ h,
       <[main_function :=
           OForeign (<["__module__":=VStr "pgi.overrides.Gtk"]>
                       (<["__name__":=VStr "main"]> ∅))
                    ["__module__"; "__name__"]]>
         (<[new_window :=
              OForeign (<["__module__":=VStr "pgi.overrides.Gtk"]>
                          (<["__name__":=VStr "MyWindow"]>
                             (<["__mro__":=VTuple [VObj new_window;
                                                    VObj old_window]]> ∅)))
                       ["__module__"; "__name__"; "__mro__"]]>
            (<[old_window :=
                 OForeign (<["__module__":=VStr "pgi.repository.Gtk"]>
                             (<["__name__":=VStr "Window"]> ∅))
                          ["__module__"; "__name__"]]> h)))
    (load_prepare Sample.base_attrs Sample.PREFIX "Gtk" (VObj Sample.gtk)
       Sample.world0).2.
End SampleOverride.
(** * Theorems *)

(** ** The success-flag wrapper *)

Section strip_boolean_result_facts.
Context {Args : Type}.
Variable method : Args → Outcome pyval.

(** The wrapper on a tuple whose head is the flag, by cases on the flag
    and on the outputs behind it. *)
Lemma strip_boolean_result_tuple args flag outs exc_type exc_str fail_ret :
  method args = Ret (VTuple (flag :: outs)) →
  strip_boolean_result method exc_type exc_str fail_ret args =
    if truthy flag then
      match outs with
      | [x] => Ret x
      | _ => Ret (VTuple outs)
      end
    else
      match exc_type with
      | Some cls => Raise (Exn cls [py_or exc_str (VStr "call failed")])
      | None => Ret fail_ret
      end.
Proof.
  intros Hret. unfold strip_boolean_result. rewrite Hret. cbn.
  destruct (truthy flag); [|done].
  destruct outs as [|x [|y rest]]; done.
Qed.

(** C3 (amended). For every wrapped callable: a truthy flag with one
    output gives that output bare; with two or more outputs it gives them
    as a tuple in the same order; a falsy flag with no exception type
    configured gives [fail_ret]; with an exception type it raises that
    type, built with [exc_str] when that is truthy, and with the default
    message when it is falsy: left at [None], or given but empty. *)
Theorem strip_boolean_result_contract args flag outs exc_type exc_str fail_ret :
  method args = Ret (VTuple (flag :: outs)) →
  let r := strip_boolean_result method exc_type exc_str fail_ret args in
  (truthy flag = true → ∀ x, outs = [x] → r = Ret x) ∧
  (truthy flag = true → ∀ x y rest, outs = x :: y :: rest →
     r = Ret (VTuple (x :: y :: rest))) ∧
  (truthy flag = false → exc_type = None → r = Ret fail_ret) ∧
  (truthy flag = false → ∀ cls, exc_type = Some cls →
     (truthy exc_str = true → r = Raise (Exn cls [exc_str])) ∧
     (truthy exc_str = false → r = Raise (Exn cls [VStr "call failed"])) ∧
     (exc_str = VNone → r = Raise (Exn cls [VStr "call failed"]))).
Proof.
  intros Hret r. subst r.
  rewrite (strip_boolean_result_tuple _ _ _ _ _ _ Hret).
  split; [|split; [|split]].
  - intros -> x ->. done.
  - intros -> x y rest ->. done.
  - intros -> ->. done.
  - intros -> cls ->. unfold py_or. split; [|split].
    + by intros ->.
    + by intros ->.
    + by intros ->.
Qed.

(** C9. A success result that carries no output, a one-element sequence
    whose flag is truthy, gives the empty remainder of the same sequence
    type: no bare value, not [fail_ret], no exception. *)
Theorem strip_boolean_result_no_outputs args flag exc_type exc_str fail_ret :
  truthy flag = true →
  (method args = Ret (VTuple [flag]) →
     strip_boolean_result method exc_type exc_str fail_ret args = Ret (VTuple [])) ∧
  (method args = Ret (VList [flag]) →
     strip_boolean_result method exc_type exc_str fail_ret args = Ret (VList [])).
Proof.
  intros Hflag. unfold strip_boolean_result.
  split; intros ->; cbn; by rewrite Hflag.
Qed.
End strip_boolean_result_facts.

(** The scenarios of the specification, with a callable that returns
    the sequence it is handed. *)
Lemma strip_boolean_result_contract_witness :
  let f : pyval → Outcome pyval := Ret in
  strip_boolean_result f default_exc_type default_exc_str default_fail_ret
    (VTuple [VBool true; VInt 7]) = Ret (VInt 7) ∧
  strip_boolean_result f default_exc_type default_exc_str default_fail_ret
    (VTuple [VBool true; VInt 7; VInt 8]) = Ret (VTuple [VInt 7; VInt 8]) ∧
  strip_boolean_result f default_exc_type default_exc_str default_fail_ret
    (VTuple [VBool false]) = Ret VNone ∧
  strip_boolean_result f (Some (OtherException "RuntimeError")) (VStr "no luck") VNone
    (VTuple [VBool false]) = Raise (Exn (OtherException "RuntimeError") [VStr "no luck"]) ∧
  strip_boolean_result f (Some (OtherException "RuntimeError")) (VInt 0) VNone
    (VTuple [VBool false]) = Raise (Exn (OtherException "RuntimeError") [VStr "call failed"]) ∧
  strip_boolean_result f (Some (OtherException "RuntimeError")) VNone VNone
    (VTuple [VBool false]) = Raise (Exn (OtherException "RuntimeError") [VStr "call failed"]).
Proof.
  intros f.
  split; [|split; [|split; [|split; [|split]]]].
  - apply (strip_boolean_result_contract f (VTuple [VBool true; VInt 7])
             (VBool true) [VInt 7] None VNone VNone eq_refl); reflexivity.
  - apply (strip_boolean_result_contract f (VTuple [VBool true; VInt 7; VInt 8])
             (VBool true) [VInt 7; VInt 8] None VNone VNone eq_refl); reflexivity.
  - apply (strip_boolean_result_contract f (VTuple [VBool false])
             (VBool false) [] None VNone VNone eq_refl); reflexivity.
  - apply (strip_boolean_result_contract f (VTuple [VBool false])
             (VBool false) [] (Some (OtherException "RuntimeError"))
             (VStr "no luck") VNone eq_refl); reflexivity.
  - apply (proj1 (proj2 (proj2 (proj2 (proj2 (strip_boolean_result_contract f
             (VTuple [VBool false]) (VBool false) []
             (Some (OtherException "RuntimeError")) (VInt 0) VNone eq_refl)))
             eq_refl _ eq_refl))); reflexivity.
  - apply (proj2 (proj2 (proj2 (proj2 (proj2 (strip_boolean_result_contract f
             (VTuple [VBool false]) (VBool false) []
             (Some (OtherException "RuntimeError")) VNone VNone eq_refl)))
             eq_refl _ eq_refl))); reflexivity.
Defined.

(** The claim as it was worded gives a message that is passed to the
    exception; a message that is given but empty is replaced by the
    default. *)
Lemma strip_boolean_result_given_empty_message :
  strip_boolean_result (Ret : pyval → Outcome pyval)
      (Some (OtherException "RuntimeError")) (VStr EmptyString) VNone
      (VTuple [VBool false])
    = Raise (Exn (OtherException "RuntimeError") [VStr "call failed"]) ∧
  strip_boolean_result (Ret : pyval → Outcome pyval)
      (Some (OtherException "RuntimeError")) (VStr EmptyString) VNone
      (VTuple [VBool false])
    ≠ Raise (Exn (OtherException "RuntimeError") [VStr EmptyString]).
Proof. split; [reflexivity|discriminate]. Qed.

Lemma strip_boolean_result_no_outputs_witness :
  let f : pyval → Outcome pyval := Ret in
  strip_boolean_result f default_exc_type default_exc_str default_fail_ret
    (VTuple [VBool true]) = Ret (VTuple []) ∧
  strip_boolean_result f (Some TypeError) (VStr "no luck") (VInt 0)
    (VList [VInt 1]) = Ret (VList []).
Proof.
  intros f. split.
  - apply (strip_boolean_result_no_outputs f (VTuple [VBool true]) (VBool true)
             None VNone VNone eq_refl); reflexivity.
  - apply (strip_boolean_result_no_outputs f (VList [VInt 1]) (VInt 1)
             (Some TypeError) (VStr "no luck") (VInt 0) eq_refl); reflexivity.
Defined.

(** ** The initializer wrapper *)

Section deprecated_init_facts.
Variable str_other : pyval → string.
Context {R : Type}.
Variable super_init_func : InitCall → R.

(** C4. With [arg_names = ["a", "b"]], the alias [old_x] for [x] and the
    default [y = 1], the call [(10, 20, old_x=5)] reaches the wrapped
    initializer with the receiver as only positional argument and the
    keywords [a=10, b=20, x=5, y=1].  The positional-use warning naming
    [a, b] and the alias-use warning naming [old_x] and [x] are emitted,
    and after these two the default-use warning naming [y=1]. *)
Theorem deprecated_init_scenario self :
  deprecated_init str_other super_init_func ["a"; "b"] [("x", "old_x")]
      [("y", VInt 1)] self [VInt 10; VInt 20] [("old_x", VInt 5)] =
    ([Warn ("Using positional arguments with the GObject constructor has been deprecated. "
            +:+ "Please specify keyword(s) for " +:+ quoted "a, b"
            +:+ " or use a class specific constructor. "
            +:+ "See: https://wiki.gnome.org/PyGObject/InitializerDeprecations")
           PyGIDeprecationWarning 2;
      Warn ("The keyword(s) " +:+ quoted "old_x"
            +:+ " have been deprecated in favor of " +:+ quoted "x"
            +:+ " respectively. "
            +:+ "See: https://wiki.gnome.org/PyGObject/InitializerDeprecations")
           PyGIDeprecationWarning 2]
     ++
     [Warn ("Initializer is relying on deprecated non-standard defaults. "
            +:+ "Please update to explicitly use: y=1 "
            +:+ "See: https://wiki.gnome.org/PyGObject/InitializerDeprecations")
           PyGIDeprecationWarning 2],
     super_init_func
       {| call_positional := [self];
          call_keywords :=
            [("a", VInt 10); ("b", VInt 20); ("x", VInt 5); ("y", VInt 1)] |}).
Proof. reflexivity. Qed.

Variable arg_names ignore : list string.
Variable deprecated_aliases : list (string * string).
Variable deprecated_defaults : list (string * pyval).
Variable category : string.
Variable stacklevel : Z.

(** Positional arguments beyond the named ones do not show in the
    keywords built from them. *)
Lemma merge_positional_surplus (named surplus : list pyval)
    (kwargs : list (string * pyval)) :
  length named = length arg_names →
  surplus ≠ [] →
  merge_positional arg_names category stacklevel (named ++ surplus) kwargs =
    ([Warn (positional_message arg_names) category stacklevel],
     dict_update (dict_of_pairs (zip arg_names named)) kwargs).
Proof.
  intros Hlen Hsurplus. unfold merge_positional.
  destruct (named ++ surplus) as [|a rest] eqn:Happ.
  { apply app_eq_nil in Happ as [_ ?]. done. }
  rewrite <-Happ. clear Happ a rest.
  rewrite take_ge by (rewrite length_app; lia).
  do 3 f_equal.
  clear Hsurplus. revert named Hlen.
  induction arg_names as [|n names IH]; intros [|x named] Hlen;
    simplify_eq/=; [done..|].
  f_equal. by apply IH.
Qed.

(** The call with surplus positional arguments, stage by stage. *)
Lemma new_init_surplus_run self (args : list pyval)
    (kwargs : list (string * pyval)) :
  (length arg_names < length args)%nat →
  ∃ ws new_kwargs,
    new_init str_other super_init_func arg_names ignore deprecated_aliases
        deprecated_defaults category stacklevel self args kwargs =
      (Warn (positional_message arg_names) category stacklevel :: ws,
       super_init_func {| call_positional := [self];
                          call_keywords := new_kwargs |}) ∧
    ∀ surplus, surplus ≠ [] →
      new_init str_other super_init_func arg_names ignore deprecated_aliases
          deprecated_defaults category stacklevel self
          (take (length arg_names) args ++ surplus) kwargs =
        (Warn (positional_message arg_names) category stacklevel :: ws,
         super_init_func {| call_positional := [self];
                            call_keywords := new_kwargs |}).
Proof.
  intros Hlen.
  assert (Hsplit : args = take (length arg_names) args ++ drop (length arg_names) args)
    by (by rewrite take_drop).
  assert (Hnamed : length (take (length arg_names) args) = length arg_names)
    by (rewrite length_take; lia).
  assert (Hrest : drop (length arg_names) args ≠ []).
  { intros Hnil. apply (f_equal length) in Hnil.
    rewrite length_drop in Hnil. simpl in Hnil. lia. }
  set (named := take (length arg_names) args) in *.
  assert (Hgen : ∀ surplus, surplus ≠ [] →
    ∃ ws new_kwargs,
      new_init str_other super_init_func arg_names ignore deprecated_aliases
          deprecated_defaults category stacklevel self (named ++ surplus) kwargs =
        (Warn (positional_message arg_names) category stacklevel :: ws,
         super_init_func {| call_positional := [self];
                            call_keywords := new_kwargs |}) ∧
      (ws, new_kwargs) =
        (let '(kw, aliases_used) :=
           foldl alias_step
             (dict_update (dict_of_pairs (zip arg_names named)) kwargs, [])
             deprecated_aliases in
         let '(kw', defaults_used) :=
           foldl (default_step deprecated_defaults) (kw, []) deprecated_defaults in
         (match aliases_used with
          | [] => []
          | _ :: _ =>
              [Warn (alias_message
                       ((λ k, default EmptyString (dict_get deprecated_aliases k))
                          <$> sorted aliases_used)
                       (sorted aliases_used)) category stacklevel]
          end ++
          match defaults_used with
          | [] => []
          | _ :: _ =>
              [Warn (defaults_message
                       ((λ k, k +:+ "=" +:+
                              py_str str_other
                                (default VNone (dict_get deprecated_defaults k)))
                          <$> sorted defaults_used)) category stacklevel]
          end,
          foldl ignore_step kw' ignore))).
  { intros surplus Hs. unfold new_init.
    rewrite (merge_positional_surplus named surplus kwargs Hnamed Hs).
    destruct (foldl alias_step _ deprecated_aliases) as [kw used].
    destruct (foldl (default_step deprecated_defaults) _ deprecated_defaults)
      as [kw' dused].
    eexists _, _. split; reflexivity. }
  destruct (Hgen _ Hrest) as (ws & new_kwargs & Hcall & Hdef).
  exists ws, new_kwargs. split.
  - by rewrite Hsplit.
  - intros surplus Hs.
    destruct (Hgen _ Hs) as (ws' & new_kwargs' & Hcall' & Hdef').
    rewrite Hcall'. rewrite <-Hdef in Hdef'. by simplify_eq.
Qed.

(** C10. Called with more positional arguments than [arg_names] has
    names, the wrapper raises nothing and calls the wrapped initializer
    with the receiver as only positional argument.  The first warning is
    the positional-use warning, and the names between its quotes are
    those of [arg_names], all of them and no other, joined by a comma
    and a space.  Neither the warnings nor the keywords of the call
    depend on the surplus values. *)
Theorem new_init_surplus_positional self (args : list pyval)
    (kwargs : list (string * pyval)) :
  (length arg_names < length args)%nat →
  ∃ ws new_kwargs,
    new_init str_other super_init_func arg_names ignore deprecated_aliases
        deprecated_defaults category stacklevel self args kwargs =
      (Warn ("Using positional arguments with the GObject constructor has been deprecated. "
             +:+ "Please specify keyword(s) for "
             +:+ String (Ascii.ascii_of_nat 34)
                   (String.concat ", " arg_names
                    +:+ String (Ascii.ascii_of_nat 34) EmptyString)
             +:+ " or use a class specific constructor. "
             +:+ "See: https://wiki.gnome.org/PyGObject/InitializerDeprecations")
          category stacklevel :: ws,
       super_init_func {| call_positional := [self];
                          call_keywords := new_kwargs |}) ∧
    ∀ surplus, surplus ≠ [] →
      new_init str_other super_init_func arg_names ignore deprecated_aliases
          deprecated_defaults category stacklevel self
          (take (length arg_names) args ++ surplus) kwargs =
        (Warn ("Using positional arguments with the GObject constructor has been deprecated. "
             +:+ "Please specify keyword(s) for "
             +:+ String (Ascii.ascii_of_nat 34)
                   (String.concat ", " arg_names
                    +:+ String (Ascii.ascii_of_nat 34) EmptyString)
             +:+ " or use a class specific constructor. "
             +:+ "See: https://wiki.gnome.org/PyGObject/InitializerDeprecations")
          category stacklevel :: ws,
         super_init_func {| call_positional := [self];
                            call_keywords := new_kwargs |}).
Proof.
  intros Hlen. exact (new_init_surplus_run self args kwargs Hlen).
Qed.
End deprecated_init_facts.

Lemma new_init_surplus_positional_witness :
  ∃ ws new_kwargs,
    new_init (λ _, EmptyString) id ["a"] [] [] [] PyGIDeprecationWarning 2
        (VObj 1%positive) [VInt 10; VInt 20; VInt 30] [] =
      (Warn ("Using positional arguments with the GObject constructor has been deprecated. "
             +:+ "Please specify keyword(s) for "
             +:+ String (Ascii.ascii_of_nat 34)
                   ("a" +:+ String (Ascii.ascii_of_nat 34) EmptyString)
             +:+ " or use a class specific constructor. "
             +:+ "See: https://wiki.gnome.org/PyGObject/InitializerDeprecations")
          PyGIDeprecationWarning 2 :: ws,
       {| call_positional := [VObj 1%positive]; call_keywords := new_kwargs |}) ∧
    ws = [] ∧ new_kwargs = [("a", VInt 10)].
Proof.
  destruct (new_init_surplus_positional (λ _, EmptyString) id ["a"] [] [] []
              PyGIDeprecationWarning 2 (VObj 1%positive)
              [VInt 10; VInt 20; VInt 30] []) as (ws & kw & Hcall & _).
  { simpl. lia. }
  exists ws, kw. split; [exact Hcall|].
  vm_compute in Hcall. split; congruence.
Defined.

(** ** The attribute protocol of a proxy *)

Lemma elem_of_sorted (x : string) (names : list string) :
  x ∈ sorted names ↔ x ∈ names.
Proof. unfold sorted. by rewrite merge_sort_Permutation. Qed.

Lemma Sorted_sorted (names : list string) : Sorted String.le (sorted names).
Proof. apply (Sorted_merge_sort String.le). Qed.

Lemma NoDup_sorted (names : list string) : NoDup names → NoDup (sorted names).
Proof. unfold sorted. by rewrite merge_sort_Permutation. Qed.

(** Running a sequence whose first statement is known. *)
Lemma bind_Ret {A B} (m : M A) (k : A → M B) w a w' :
  m w = (Ret a, w') → bind m k w = k a w'.
Proof. unfold bind. by intros ->. Qed.

Lemma bind_Raise {A B} (m : M A) (k : A → M B) w e w' :
  m w = (Raise e, w') → bind m k w = (Raise e, w').
Proof. unfold bind. by intros ->. Qed.

Lemma deref_Some w l o : heap w !! l = Some o → deref l w = (Ret o, w).
Proof. unfold deref. by intros ->. Qed.

Section protocol_facts.
Variable base_attrs : gmap string pyval.

Local Abbreviation getattr_rec := (getattr_rec base_attrs).
Local Abbreviation setattr_rec := (setattr_rec base_attrs).
Local Abbreviation class_lookup := (class_lookup base_attrs).

Lemma class_lookup_descriptor cdict name :
  is_data_descriptor (class_lookup cdict name) = is_data_descriptor (cdict !! name).
Proof.
  unfold class_lookup. destruct (cdict !! name) as [a|]; [done|].
  by destruct (base_attrs !! name).
Qed.

Lemma getattr_rec_foreign n w l attrs names name :
  heap w !! l = Some (OForeign attrs names) →
  getattr_rec (S n) (VObj l) name w =
    (match attrs !! name with
     | Some v => Ret v
     | None => Raise (Exn AttributeError [VStr name])
     end, w).
Proof.
  intros Hl. simpl. unfold bind, deref. rewrite Hl.
  by destruct (attrs !! name).
Qed.

Lemma getattr_rec_proxy n w l cls dict cname cdict name :
  heap w !! l = Some (OProxy cls dict) →
  heap w !! cls = Some (OClass cname cdict) →
  getattr_rec (S n) (VObj l) name w =
    match class_lookup cdict name, dict !! name with
    | Some (CDeprecated d), _ => DeprecatedAttribute_get d (Some (VObj l)) w
    | _, Some v => (Ret v, w)
    | Some (CPlain v), None => (Ret v, w)
    | None, None =>
        OverridesProxyModule_getattr (getattr_rec n) (VObj l) name w
    end.
Proof.
  intros Hl Hc. simpl. unfold bind, deref. rewrite Hl, Hc.
  destruct (class_lookup cdict name) as [[v|d]|], (dict !! name); done.
Qed.

(** An attribute of the instance [__dict__] that no descriptor shadows is
    read without any effect. *)
Lemma getattr_rec_instance n w l cls dict cname cdict name v :
  heap w !! l = Some (OProxy cls dict) →
  heap w !! cls = Some (OClass cname cdict) →
  is_data_descriptor (cdict !! name) = false →
  dict !! name = Some v →
  getattr_rec (S n) (VObj l) name w = (Ret v, w).
Proof.
  intros Hl Hc Hnd Hv.
  rewrite (getattr_rec_proxy _ _ _ _ _ _ _ _ Hl Hc), Hv.
  rewrite <-class_lookup_descriptor in Hnd.
  by destruct (class_lookup cdict name) as [[?|?]|].
Qed.

Lemma dir_rec_foreign n w l attrs names :
  heap w !! l = Some (OForeign attrs names) →
  dir_rec base_attrs (S n) (VObj l) w = (Ret (sorted names), w).
Proof. intros Hl. simpl. unfold bind, deref. by rewrite Hl. Qed.

Lemma dir_rec_class n w l cname cdict :
  heap w !! l = Some (OClass cname cdict) →
  dir_rec base_attrs (S n) (VObj l) w = (Ret (class_dir base_attrs cdict), w).
Proof. intros Hl. simpl. unfold bind, deref. by rewrite Hl. Qed.

(** C8. [__dir__] of a proxy that wraps an introspected module returns a
    sorted list without repetition whose members are exactly the names of
    the proxy class (its own and the inherited ones), the keys of the
    instance [__dict__] and the names in the directory of the wrapped
    module. *)
Theorem proxy_dir_union w self cls dict cname cdict m attrs names :
  heap w !! self = Some (OProxy cls dict) →
  heap w !! cls = Some (OClass cname cdict) →
  dict !! "_introspection_module" = Some (VObj m) →
  is_data_descriptor (cdict !! "_introspection_module") = false →
  heap w !! m = Some (OForeign attrs names) →
  ∃ result,
    proxy_dir base_attrs self w = (Ret result, w) ∧
    Sorted String.le result ∧
    NoDup result ∧
    ∀ x, x ∈ result ↔
         (x ∈ dom cdict ∨ x ∈ dom base_attrs) ∨ x ∈ dom dict ∨ x ∈ names.
Proof.
  intros Hself Hcls Him Hnd Hm.
  exists (sorted (elements
    (list_to_set (class_dir base_attrs cdict) ∪ dom dict
       ∪ list_to_set (sorted names) : gset string))).
  split; [|split; [|split]].
  - unfold proxy_dir, OverridesProxyModule_dir.
    rewrite (bind_Ret _ _ _ _ _ (deref_Some _ _ _ Hself)).
    unfold py_dir, recursion_limit.
    rewrite (bind_Ret _ _ _ _ _ (dir_rec_class _ _ _ _ _ Hcls)).
    unfold getattr, recursion_limit.
    rewrite (bind_Ret _ _ _ _ _
               (getattr_rec_instance _ _ _ _ _ _ _ _ _ Hself Hcls Hnd Him)).
    rewrite (bind_Ret _ _ _ _ _ (dir_rec_foreign _ _ _ _ _ Hm)).
    done.
  - apply Sorted_sorted.
  - apply NoDup_sorted, NoDup_elements.
  - intros x. rewrite elem_of_sorted, elem_of_elements.
    rewrite !elem_of_union, !elem_of_list_to_set.
    unfold class_dir.
    rewrite !elem_of_sorted, elem_of_elements, elem_of_union.
    tauto.
Qed.

Lemma setattr_rec_proxy n w l cls dict cname cdict name v :
  heap w !! l = Some (OProxy cls dict) →
  heap w !! cls = Some (OClass cname cdict) →
  setattr_rec (S n) (VObj l) name v w =
    match class_lookup cdict name with
    | Some (CDeprecated d) =>
        DeprecatedAttribute_set (setattr_rec n) d (VObj l) v w
    | _ => store l (OProxy cls (<[name:=v]> dict)) w
    end.
Proof.
  intros Hl Hc. simpl.
  rewrite (bind_Ret _ _ _ _ _ (deref_Some _ _ _ Hl)).
  rewrite (bind_Ret _ _ _ _ _ (deref_Some _ _ _ Hc)).
  by destruct (class_lookup cdict name) as [[?|?]|].
Qed.

Lemma setattr_rec_instance n w l cls dict cname cdict name v :
  heap w !! l = Some (OProxy cls dict) →
  heap w !! cls = Some (OClass cname cdict) →
  is_data_descriptor (cdict !! name) = false →
  setattr_rec (S n) (VObj l) name v w =
    (Ret tt, set_heap (<[l := OProxy cls (<[name:=v]> dict)]>) w).
Proof.
  intros Hl Hc Hnd. simpl.
  rewrite (bind_Ret _ _ _ _ _ (deref_Some _ _ _ Hl)).
  rewrite (bind_Ret _ _ _ _ _ (deref_Some _ _ _ Hc)).
  rewrite <-class_lookup_descriptor in Hnd.
  by destruct (class_lookup cdict name) as [[?|?]|].
Qed.

Lemma py_type_proxy w l cls dict :
  heap w !! l = Some (OProxy cls dict) →
  py_type (VObj l) w = (Ret cls, w).
Proof.
  intros Hl. unfold py_type.
  by rewrite (bind_Ret _ _ _ _ _ (deref_Some _ _ _ Hl)).
Qed.

Lemma type_delattr_present w cls cname cdict name a :
  heap w !! cls = Some (OClass cname cdict) →
  cdict !! name = Some a →
  type_delattr cls name w =
    (Ret tt, set_heap (<[cls := OClass cname (delete name cdict)]>) w).
Proof.
  intros Hc Ha. unfold type_delattr.
  rewrite (bind_Ret _ _ _ _ _ (deref_Some _ _ _ Hc)). by rewrite Ha.
Qed.

(** C5. A [_DeprecatedAttribute] sits in the class of a proxy under its
    own name.  Reading the name through the proxy returns the stored
    value and emits the one warning of the descriptor, nothing else
    changes.  Writing removes the descriptor from the class and puts the
    new value in the instance [__dict__]; the next read returns that
    value and leaves the state, warnings included, as it is.  Deleting
    removes the descriptor from the class; when neither the instance nor
    the inherited attributes have the name, the next read is answered by
    the wrapped module, with its value or with [AttributeError]. *)
Theorem deprecated_attribute_protocol w p cls dict cname cdict attr d :
  heap w !! p = Some (OProxy cls dict) →
  heap w !! cls = Some (OClass cname cdict) →
  cdict !! attr = Some (CDeprecated d) →
  _attr d = attr →
  getattr base_attrs (VObj p) attr w =
    (Ret (_value d), set_warnings_log (λ log, log ++ [_warning d]) w) ∧
  (∀ v,
     let w' :=
       set_heap (λ h, <[p := OProxy cls (<[attr:=v]> dict)]>
                        (<[cls := OClass cname (delete attr cdict)]> h)) w in
     setattr base_attrs (VObj p) attr v w = (Ret tt, w') ∧
     getattr base_attrs (VObj p) attr w' = (Ret v, w')) ∧
  (let w' := set_heap (<[cls := OClass cname (delete attr cdict)]>) w in
   delattr base_attrs (VObj p) attr w = (Ret tt, w') ∧
   (dict !! attr = None →
    base_attrs !! attr = None →
    ∀ m attrs names,
      dict !! "_introspection_module" = Some (VObj m) →
      is_data_descriptor (cdict !! "_introspection_module") = false →
      heap w !! m = Some (OForeign attrs names) →
      getattr base_attrs (VObj p) attr w' =
        (match attrs !! attr with
         | Some x => Ret x
         | None => Raise (Exn AttributeError [VStr attr])
         end, w'))).
Proof.
  intros Hp Hc Hd Hattr.
  assert (Hne : p ≠ cls) by (intros ->; congruence).
  assert (Hlook : class_lookup cdict attr = Some (CDeprecated d))
    by (unfold class_lookup; by rewrite Hd).
  assert (Hgone : is_data_descriptor (delete attr cdict !! attr) = false)
    by (by rewrite lookup_delete_eq).
  split; [|split].
  - unfold getattr, recursion_limit.
    rewrite (getattr_rec_proxy _ _ _ _ _ _ _ _ Hp Hc), Hlook. done.
  - intros v w'.
    assert (Hp1 : heap (set_heap (<[cls := OClass cname (delete attr cdict)]>) w)
                    !! p = Some (OProxy cls dict))
      by (simpl; by rewrite lookup_insert_ne).
    assert (Hc1 : heap (set_heap (<[cls := OClass cname (delete attr cdict)]>) w)
                    !! cls = Some (OClass cname (delete attr cdict)))
      by (simpl; by rewrite lookup_insert_eq).
    split.
    + unfold setattr, recursion_limit.
      rewrite (setattr_rec_proxy _ _ _ _ _ _ _ _ _ Hp Hc), Hlook.
      unfold DeprecatedAttribute_set. rewrite Hattr.
      rewrite (bind_Ret _ _ _ _ _ (py_type_proxy _ _ _ _ Hp)).
      rewrite (bind_Ret _ _ _ _ _ (type_delattr_present _ _ _ _ _ _ Hc Hd)).
      by rewrite (setattr_rec_instance _ _ _ _ _ _ _ _ _ Hp1 Hc1 Hgone).
    + unfold getattr, recursion_limit.
      apply (getattr_rec_instance _ w' p cls (<[attr:=v]> dict) cname
               (delete attr cdict)); subst w'; simpl.
      * by rewrite lookup_insert_eq.
      * rewrite lookup_insert_ne by done. by rewrite lookup_insert_eq.
      * done.
      * by rewrite lookup_insert_eq.
  - intros w'.
    assert (Hp1 : heap w' !! p = Some (OProxy cls dict))
      by (subst w'; simpl; by rewrite lookup_insert_ne).
    assert (Hc1 : heap w' !! cls = Some (OClass cname (delete attr cdict)))
      by (subst w'; simpl; by rewrite lookup_insert_eq).
    split.
    + unfold delattr.
      rewrite (bind_Ret _ _ _ _ _ (deref_Some _ _ _ Hp)).
      rewrite (bind_Ret _ _ _ _ _ (deref_Some _ _ _ Hc)).
      rewrite Hlook. unfold DeprecatedAttribute_delete. rewrite Hattr.
      rewrite (bind_Ret _ _ _ _ _ (py_type_proxy _ _ _ _ Hp)).
      by rewrite (type_delattr_present _ _ _ _ _ _ Hc Hd).
    + intros Hinst Hbase m attrs names Him Hnd Hm.
      assert (Hattr_ne : attr ≠ "_introspection_module")
        by (intros ->; congruence).
      assert (Hm1 : heap w' !! m = Some (OForeign attrs names)).
      { subst w'; simpl. rewrite lookup_insert_ne; [done|].
        intros ->. congruence. }
      assert (Hmiss : class_lookup (delete attr cdict) attr = None).
      { unfold class_lookup. by rewrite lookup_delete_eq, Hbase. }
      unfold getattr, recursion_limit.
      rewrite (getattr_rec_proxy _ _ _ _ _ _ _ _ Hp1 Hc1), Hmiss, Hinst.
      unfold OverridesProxyModule_getattr.
      erewrite bind_Ret; last first.
      { apply (getattr_rec_instance _ _ _ _ _ _ _ _ _ Hp1 Hc1); [|done].
        by rewrite lookup_delete_ne. }
      by rewrite (getattr_rec_foreign _ _ _ _ _ _ Hm1).
Qed.
End protocol_facts.

Lemma proxy_dir_union_witness :
  ∃ result,
    proxy_dir Sample.base_attrs Sample.proxy Sample.loaded
      = (Ret result, Sample.loaded) ∧
    Sorted String.le result ∧ NoDup result ∧ "main" ∈ result.
Proof.
  destruct (proxy_dir_union Sample.base_attrs Sample.loaded
              Sample.proxy Sample.proxy_type
              (instance_dict Sample.loaded Sample.proxy) "GtkProxyModule"
              (class_dict Sample.loaded Sample.proxy_type)
              Sample.gtk (foreign_attrs Sample.loaded Sample.gtk)
              Sample.gtk_names)
    as (result & Hrun & Hsorted & Hnodup & Hmem).
  - vm_compute. reflexivity.
  - vm_compute. reflexivity.
  - vm_compute. reflexivity.
  - vm_compute. reflexivity.
  - vm_compute. reflexivity.
  - exists result.
    split; [exact Hrun|]. split; [exact Hsorted|]. split; [exact Hnodup|].
    apply Hmem. right. right. apply list_elem_of_here.
Defined.

Lemma deprecated_attribute_protocol_witness :
  let w := Sample.loaded in
  let old := VObj Sample.proxy in
  getattr Sample.base_attrs old "OLD_CONST" w =
    (Ret (VInt 42),
     set_warnings_log
       (λ log, log ++ [Warn "Gtk.OLD_CONST is deprecated; use Gtk.Const.NEW instead"
                            PyGIDeprecationWarning 2]) w) ∧
  (∃ w', setattr Sample.base_attrs old "OLD_CONST" (VInt 43) w = (Ret tt, w') ∧
         getattr Sample.base_attrs old "OLD_CONST" w' = (Ret (VInt 43), w')) ∧
  (∃ w', delattr Sample.base_attrs old "OLD_CONST" w = (Ret tt, w') ∧
         getattr Sample.base_attrs old "OLD_CONST" w' = (Ret (VInt 41), w')).
Proof.
  intros w old. subst w old.
  destruct (deprecated_attribute_protocol Sample.base_attrs Sample.loaded
              Sample.proxy Sample.proxy_type
              (instance_dict Sample.loaded Sample.proxy) "GtkProxyModule"
              (class_dict Sample.loaded Sample.proxy_type) "OLD_CONST"
              (DeprecatedAttribute_init "Gtk" "OLD_CONST" (VInt 42) "Gtk.Const.NEW"))
    as (Hread & Hwrite & Hdelete & Hafter).
  - vm_compute. reflexivity.
  - vm_compute. reflexivity.
  - vm_compute. reflexivity.
  - reflexivity.
  - split; [exact Hread|]. split.
    + eexists. exact (Hwrite (VInt 43)).
    + eexists. split; [exact Hdelete|].
      rewrite (Hafter eq_refl eq_refl Sample.gtk
                 (foreign_attrs Sample.loaded Sample.gtk) Sample.gtk_names).
      * f_equal.
      * vm_compute. reflexivity.
      * vm_compute. reflexivity.
      * vm_compute. reflexivity.
Defined.

(** ** Statements that leave the deprecation registry alone *)

Lemma keeps_ret {A} (a : A) : keeps_registry (ret a).
Proof. by intros w. Qed.

Lemma keeps_raise {A} (e : exn) : keeps_registry (@raise A e).
Proof. by intros w. Qed.

Lemma keeps_lift {A} (o : Outcome A) : keeps_registry (lift o).
Proof. by intros w. Qed.

Lemma keeps_bind {A B} (m : M A) (k : A → M B) :
  keeps_registry m → (∀ a, keeps_registry (k a)) → keeps_registry (bind m k).
Proof.
  intros Hm Hk w. unfold bind. specialize (Hm w).
  destruct (m w) as [[a|e] w1]; simpl in *; [|done].
  by rewrite Hk.
Qed.

Lemma keeps_try_except {A} (body : M A) handles (handler : exn → M A) :
  keeps_registry body → (∀ e, keeps_registry (handler e)) →
  keeps_registry (try_except body handles handler).
Proof.
  intros Hm Hk w. unfold try_except. specialize (Hm w).
  destruct (body w) as [[a|e] w1]; simpl in *; [done|].
  destruct (handles e); [|done]. by rewrite Hk.
Qed.

Lemma keeps_deref l : keeps_registry (deref l).
Proof. intros w. unfold deref. by destruct (heap w !! l). Qed.

Lemma keeps_store l o : keeps_registry (store l o).
Proof. by intros w. Qed.

Lemma keeps_warn wn : keeps_registry (warn wn).
Proof. by intros w. Qed.

Lemma keeps_for_each {A} (xs : list A) (body : A → M unit) :
  (∀ x, keeps_registry (body x)) → keeps_registry (for_each xs body).
Proof.
  intros Hbody. induction xs as [|x xs IH]; simpl.
  - apply keeps_ret.
  - apply keeps_bind; auto.
Qed.

Lemma keeps_attribute_error {A} name : keeps_registry (@attribute_error A name).
Proof. by intros w. Qed.

Lemma keeps_recursion_error {A} : keeps_registry (@recursion_error A).
Proof. by intros w. Qed.

#[local] Hint Resolve keeps_ret keeps_raise keeps_lift keeps_deref keeps_store
  keeps_warn keeps_attribute_error keeps_recursion_error : registry.

(** Splits a statement along its binds and its case distinctions. *)
Ltac keeps_step :=
  lazymatch goal with
  | |- keeps_registry (bind _ _) => apply keeps_bind; [|intros ?]
  | |- keeps_registry (try_except _ _ _) => apply keeps_try_except; [|intros ?]
  | |- keeps_registry (match ?x with _ => _ end) => destruct x
  | |- keeps_registry (let _ := _ in _) => cbv zeta
  | |- _ => solve [auto with registry]
  end.

Section registry_facts.
Variable base_attrs : gmap string pyval.

Lemma keeps_py_type o : keeps_registry (py_type o).
Proof. unfold py_type. repeat keeps_step. Qed.

Lemma keeps_type_delattr cls name : keeps_registry (type_delattr cls name).
Proof. unfold type_delattr. repeat keeps_step. Qed.

Lemma keeps_type_setattr cls name a : keeps_registry (type_setattr cls name a).
Proof. unfold type_setattr. repeat keeps_step. Qed.

Hint Resolve keeps_py_type keeps_type_delattr keeps_type_setattr : registry.

Lemma keeps_getattr_rec depth o name :
  keeps_registry (getattr_rec base_attrs depth o name).
Proof.
  revert o name. induction depth as [|depth IH]; intros o name.
  { apply keeps_recursion_error. }
  cbn [getattr_rec].
  unfold DeprecatedAttribute_get, OverridesProxyModule_getattr.
  repeat keeps_step.
Qed.

Lemma keeps_getattr o name : keeps_registry (getattr base_attrs o name).
Proof. apply keeps_getattr_rec. Qed.

Lemma keeps_delattr o name : keeps_registry (delattr base_attrs o name).
Proof. unfold delattr, DeprecatedAttribute_delete. repeat keeps_step. Qed.

Hint Resolve keeps_getattr keeps_delattr : registry.

Lemma keeps_install_deprecated ns proxy proxy_type entry :
  keeps_registry (install_deprecated base_attrs ns proxy proxy_type entry).
Proof.
  unfold install_deprecated. destruct entry as [attr replacement].
  repeat keeps_step.
Qed.
End registry_facts.

(** ** The loader *)



Section load_facts.
Variable base_attrs : gmap string pyval.
Variable PREFIX : list string.
Variable import_override : string → UnitRun.
Variable find_module : string → option (option nat).
Variable reraise : ExcClass → exn → exn.

(** The registry of aliases after [register_aliases]. *)
Lemma register_aliases_run ns target w :
  register_aliases PREFIX ns target w =
    (Ret tt,
     set_sys_modules
       (λ mods, foldl (λ acc prefix, <[prefix +:+ "." +:+ ns := target]> acc)
                  mods PREFIX) w).
Proof.
  unfold register_aliases. revert w.
  induction PREFIX as [|prefix prefixes IH]; intros w; simpl.
  - by destruct w.
  - unfold bind, modify. rewrite IH. done.
Qed.

Lemma aliases_registered ns target (mods : gmap string pyval) prefix :
  prefix ∈ PREFIX →
  foldl (λ acc prefix, <[prefix +:+ "." +:+ ns := target]> acc) mods PREFIX
    !! (prefix +:+ "." +:+ ns) = Some target.
Proof.
  intros Hin.
  assert (Hgen : ∀ (prefixes : list string) (mods : gmap string pyval) key,
    (mods !! key = Some target ∨ ∃ q, q ∈ prefixes ∧ key = q +:+ "." +:+ ns) →
    foldl (λ acc prefix, <[prefix +:+ "." +:+ ns := target]> acc) mods prefixes
      !! key = Some target).
  { induction prefixes as [|q prefixes IH]; intros ms key Hkey; simpl.
    - destruct Hkey as [?|(q & Hq & _)]; [done|by apply elem_of_nil in Hq].
    - apply IH.
      destruct (decide (key = q +:+ "." +:+ ns)) as [->|Hne].
      + left. apply lookup_insert_eq.
      + destruct Hkey as [Hkey|(q' & Hq' & ->)].
        * left. by rewrite lookup_insert_ne.
        * apply elem_of_cons in Hq' as [->|Hq']; [done|]. right. eauto. }
  apply Hgen. right. eauto.
Qed.

(** Instantiating a proxy class whose own dictionary does not shadow
    [_introspection_module], on a module object that has a name. *)
Lemma new_proxy_ok w pt cname cdict m attrs names name :
  heap w !! pt = Some (OClass cname cdict) →
  is_data_descriptor (cdict !! "_introspection_module") = false →
  heap w !! m = Some (OForeign attrs names) →
  attrs !! "__name__" = Some name →
  ∃ p w1, new_proxy base_attrs pt (VObj m) w = (Ret p, w1).
Proof.
  intros Hpt Hnd Hm Hname. unfold new_proxy.
  set (p := fresh (dom (heap w))).
  assert (Hp : heap w !! p = None) by (apply not_elem_of_dom, is_fresh).
  assert (Hpm : p ≠ m) by (intros ->; congruence).
  assert (Hppt : p ≠ pt) by (intros ->; congruence).
  set (wb := set_heap (insert p (OProxy pt ∅)) w).
  assert (Hmb : heap wb !! m = Some (OForeign attrs names))
    by (subst wb; simpl; by rewrite lookup_insert_ne).
  assert (Hpb : heap wb !! p = Some (OProxy pt ∅))
    by (subst wb; simpl; by rewrite lookup_insert_eq).
  set (d1 := module_dict name ∅).
  set (wc := set_heap (<[p := OProxy pt d1]>) wb).
  rewrite (bind_Ret _ _ w p wb) by done.
  unfold OverridesProxyModule_init.
  assert (Hget : getattr base_attrs (VObj m) "__name__" wb = (Ret name, wb)).
  { unfold getattr, recursion_limit.
    rewrite (getattr_rec_foreign _ _ _ _ _ _ _ Hmb). by rewrite Hname. }
  assert (Hinit : ModuleType_init p name wb = (Ret tt, wc)).
  { unfold ModuleType_init.
    by rewrite (bind_Ret _ _ _ _ _ (deref_Some _ _ _ Hpb)). }
  assert (Hset : setattr base_attrs (VObj p) "_introspection_module" (VObj m) wc
                 = (Ret tt, set_heap (<[p := OProxy pt
                      (<["_introspection_module":=VObj m]> d1)]>) wc)).
  { unfold setattr, recursion_limit.
    apply (setattr_rec_instance base_attrs _ _ p pt _ cname cdict).
    - subst wc. simpl. by rewrite lookup_insert_eq.
    - subst wc wb. simpl. by rewrite !lookup_insert_ne.
    - done. }
  erewrite bind_Ret; [by eauto|].
  rewrite (bind_Ret _ _ _ _ _ Hget).
  rewrite (bind_Ret _ _ _ _ _ Hinit).
  exact Hset.
Qed.

(** The preparation succeeds for every module object that has a name. *)
Lemma load_prepare_ok ns m attrs names name w :
  heap w !! m = Some (OForeign attrs names) →
  attrs !! "__name__" = Some name →
  ∃ pt p w1, load_prepare base_attrs PREFIX ns (VObj m) w = (Ret (pt, p), w1).
Proof.
  intros Hm Hname. unfold load_prepare, new_proxy_type.
  set (cdict := <["__module__":=CPlain (VStr this_module)]>
                  (<["__doc__":=CPlain VNone]> (∅ : gmap string ClassAttr))).
  set (pt := fresh (dom (heap w))).
  assert (Hpt : heap w !! pt = None)
    by (apply not_elem_of_dom, is_fresh).
  assert (Hptm : pt ≠ m) by (intros ->; congruence).
  set (wa := set_heap (insert pt (OClass (ns +:+ "ProxyModule") cdict)) w).
  rewrite (bind_Ret _ _ w pt wa) by done.
  destruct (new_proxy_ok wa pt (ns +:+ "ProxyModule") cdict m attrs names name)
    as (p & w1 & Hnew); [| done | | done |].
  { subst wa. simpl. by rewrite lookup_insert_eq. }
  { subst wa. simpl. by rewrite lookup_insert_ne. }
  rewrite (bind_Ret _ _ _ _ _ Hnew).
  rewrite (bind_Ret _ _ _ _ _ (register_aliases_run _ _ _)).
  unfold ret. eauto.
Qed.

(** [load] after its preparation, by the outcome of the import. *)
Lemma load_unfold ns module w pt p w1 :
  load_prepare base_attrs PREFIX ns module w = (Ret (pt, p), w1) →
  load base_attrs PREFIX import_override find_module reraise ns module w =
    match run_result (import_override (this_module +:+ "." +:+ ns)) with
    | Raise err =>
        if is_Exception (exn_class err)
        then import_failed PREFIX find_module reraise ns module err
               (run_effect (import_override (this_module +:+ "." +:+ ns)) w1)
        else (Raise err,
              run_effect (import_override (this_module +:+ "." +:+ ns)) w1)
    | Ret override_vars =>
        merge_override base_attrs ns p pt override_vars
          (run_effect (import_override (this_module +:+ "." +:+ ns)) w1)
    end.
Proof.
  intros Hprep. unfold load.
  rewrite (bind_Ret _ _ _ _ _ Hprep). unfold import_vars.
  by destruct (run_result _).
Qed.

Lemma load_prepare_raises ns module w e w1 :
  load_prepare base_attrs PREFIX ns module w = (Raise e, w1) →
  load base_attrs PREFIX import_override find_module reraise ns module w =
    (Raise e, w1).
Proof. intros Hprep. unfold load. by rewrite (bind_Raise _ _ _ _ _ Hprep). Qed.
End load_facts.

Section load_claims.
Variable base_attrs : gmap string pyval.
Variable PREFIX : list string.
Variable import_override : string → UnitRun.
Variable find_module : string → option (option nat).

(** C1. No override module: the import fails with an exception and
    [imp.find_module] finds nothing.  Then [load] returns the very object
    it was given, and every alias in [sys.modules] names that object
    again, not the proxy registered before the import. *)
Theorem load_without_override (reraise : ExcClass → exn → exn)
    ns m attrs names name w err :
  heap w !! m = Some (OForeign attrs names) →
  attrs !! "__name__" = Some name →
  run_result (import_override (this_module +:+ "." +:+ ns)) = Raise err →
  is_Exception (exn_class err) = true →
  find_module ns = None →
  ∃ w',
    load base_attrs PREFIX import_override find_module reraise ns (VObj m) w
      = (Ret (VObj m), w') ∧
    ∀ prefix, prefix ∈ PREFIX →
      sys_modules w' !! (prefix +:+ "." +:+ ns) = Some (VObj m).
Proof.
  intros Hm Hname Hrun Hexc Hfind.
  destruct (load_prepare_ok base_attrs PREFIX ns m attrs names name w Hm Hname)
    as (pt & p & w1 & Hprep).
  rewrite (load_unfold _ _ _ _ _ _ _ _ _ _ _ Hprep), Hrun, Hexc.
  unfold import_failed. rewrite Hfind.
  rewrite (bind_Ret _ _ _ _ _ (register_aliases_run _ _ _ _)).
  eexists. split; [reflexivity|].
  intros prefix Hin. simpl. by apply aliases_registered.
Qed.

(** C2. The override module exists ([imp.find_module] finds it) and its
    evaluation raises: [load] raises that same exception; it neither
    returns the module nor the proxy. *)
Theorem load_override_failure ns m attrs names name w err fp :
  heap w !! m = Some (OForeign attrs names) →
  attrs !! "__name__" = Some name →
  run_result (import_override (this_module +:+ "." +:+ ns)) = Raise err →
  find_module ns = Some fp →
  ∃ w',
    load base_attrs PREFIX import_override find_module spec_reraise ns (VObj m) w
      = (Raise err, w').
Proof.
  intros Hm Hname Hrun Hfind.
  destruct (load_prepare_ok base_attrs PREFIX ns m attrs names name w Hm Hname)
    as (pt & p & w1 & Hprep).
  rewrite (load_unfold _ _ _ _ _ _ _ _ _ _ _ Hprep), Hrun.
  destruct (is_Exception (exn_class err)); [|by eauto].
  unfold import_failed. rewrite Hfind.
  destruct fp as [f|]; unfold bind, modify, ret, raise, spec_reraise; eauto.
Qed.

(** With any [reraise]: what [load] raises is what [reraise] makes of
    [ImportError] and the exception caught. *)
Lemma load_override_reraised (reraise : ExcClass → exn → exn)
    ns m attrs names name w err fp :
  heap w !! m = Some (OForeign attrs names) →
  attrs !! "__name__" = Some name →
  run_result (import_override (this_module +:+ "." +:+ ns)) = Raise err →
  is_Exception (exn_class err) = true →
  find_module ns = Some fp →
  ∃ w',
    load base_attrs PREFIX import_override find_module reraise ns (VObj m) w
      = (Raise (reraise ImportError err), w').
Proof.
  intros Hm Hname Hrun Hexc Hfind.
  destruct (load_prepare_ok base_attrs PREFIX ns m attrs names name w Hm Hname)
    as (pt & p & w1 & Hprep).
  rewrite (load_unfold _ _ _ _ _ _ _ _ _ _ _ Hprep), Hrun, Hexc.
  unfold import_failed. rewrite Hfind.
  destruct fp as [f|]; unfold bind, modify, ret, raise; eauto.
Qed.

Variable reraise : ExcClass → exn → exn.

(** C7. When the override module was evaluated and [load] returns, the
    registry of deprecated attributes has no entry for the namespace. *)
Theorem load_drains_registry ns module w override_vars v w' :
  run_result (import_override (this_module +:+ "." +:+ ns)) = Ret override_vars →
  load base_attrs PREFIX import_override find_module reraise ns module w
    = (Ret v, w') →
  _deprecated_attrs w' !! ns = None.
Proof.
  intros Hrun Hload.
  destruct (load_prepare base_attrs PREFIX ns module w) as [[[pt p]|e] w1] eqn:Hprep.
  2: { by rewrite (load_prepare_raises _ _ _ _ _ _ _ _ _ _ Hprep) in Hload. }
  rewrite (load_unfold _ _ _ _ _ _ _ _ _ _ _ Hprep), Hrun in Hload.
  unfold merge_override in Hload.
  set (w2 := run_effect _ w1) in Hload. clearbody w2.
  unfold bind at 1, lift in Hload.
  destruct (py_iter _) as [exports|e]; [|done].
  unfold bind at 1 in Hload.
  destruct (for_each exports _ w2) as [[[]|e] w3]; [|done].
  unfold bind at 1, pop_deprecated in Hload.
  pose proof (keeps_for_each
    (default [] (_deprecated_attrs w3 !! ns))
    (install_deprecated base_attrs ns p pt)
    (keeps_install_deprecated base_attrs ns p pt)
    (set_deprecated_attrs (delete ns) w3)) as Hkeep.
  unfold bind in Hload.
  destruct (for_each _ _ (set_deprecated_attrs (delete ns) w3)) as [[[]|e] w4];
    [|done].
  unfold ret in Hload. simplify_eq.
  simpl in Hkeep. rewrite Hkeep. apply lookup_delete_eq.
Qed.
End load_claims.

Section proxy_lookup.
Variable base_attrs : gmap string pyval.

Lemma class_lookup_None cdict name :
  cdict !! name = None → base_attrs !! name = None →
  class_lookup base_attrs cdict name = None.
Proof. intros Hc Hb. unfold class_lookup. by rewrite Hc, Hb. Qed.

(** What the attribute lookup on a proxy comes to for a name that
    neither the class nor the instance has. *)
Lemma getattr_through_proxy w p cls dict cname cdict m attrs names name :
  heap w !! p = Some (OProxy cls dict) →
  heap w !! cls = Some (OClass cname cdict) →
  dict !! "_introspection_module" = Some (VObj m) →
  is_data_descriptor (cdict !! "_introspection_module") = false →
  heap w !! m = Some (OForeign attrs names) →
  cdict !! name = None →
  base_attrs !! name = None →
  dict !! name = None →
  getattr base_attrs (VObj p) name w =
    (match attrs !! name with
     | Some v => Ret v
     | None => Raise (Exn AttributeError [VStr name])
     end, w).
Proof.
  intros Hp Hc Him Hnd Hm Hcn Hbn Hdn.
  unfold getattr, recursion_limit.
  rewrite (getattr_rec_proxy _ _ _ _ _ _ _ _ _ Hp Hc).
  rewrite (class_lookup_None _ _ Hcn Hbn), Hdn.
  unfold OverridesProxyModule_getattr.
  rewrite (bind_Ret _ _ _ _ _
             (getattr_rec_instance _ _ _ _ _ _ _ _ _ _ Hp Hc Hnd Him)).
  exact (getattr_rec_foreign _ _ _ _ _ _ _ Hm).
Qed.

Lemma getattr_foreign w m attrs names name :
  heap w !! m = Some (OForeign attrs names) →
  getattr base_attrs (VObj m) name w =
    (match attrs !! name with
     | Some v => Ret v
     | None => Raise (Exn AttributeError [VStr name])
     end, w).
Proof.
  intros Hm. unfold getattr, recursion_limit.
  exact (getattr_rec_foreign _ _ _ _ _ _ _ Hm).
Qed.


End proxy_lookup.

Section consistency.
Variable base_attrs : gmap string pyval.
Variable PREFIX : list string.
Variable import_override : string → UnitRun.
Variable find_module : string → option (option nat).
Variable reraise : ExcClass → exn → exn.

Local Abbreviation load :=
  (load base_attrs PREFIX import_override find_module reraise).


End consistency.

(** ** The loader on the sample installation *)

Lemma load_without_override_witness :
  ∃ w',
    Sample.load "Nope" (VObj Sample.gtk) Sample.world0
      = (Ret (VObj Sample.gtk), w') ∧
    sys_modules w' !! "pgi.repository.Nope" = Some (VObj Sample.gtk) ∧
    sys_modules w' !! "gi.repository.Nope" = Some (VObj Sample.gtk).
Proof.
  destruct (load_without_override Sample.base_attrs Sample.PREFIX
              Sample.import_override Sample.find_module spec_reraise
              "Nope" Sample.gtk (foreign_attrs Sample.world0 Sample.gtk)
              Sample.gtk_names (VStr "Gtk") Sample.world0
              (Sample.import_error "pgi.overrides.Nope"))
    as (w' & Hload & Halias).
  - vm_compute. reflexivity.
  - vm_compute. reflexivity.
  - vm_compute. reflexivity.
  - reflexivity.
  - reflexivity.
  - exists w'. split; [exact Hload|]. split.
    + apply (Halias "pgi.repository"). apply list_elem_of_here.
    + apply (Halias "gi.repository").
      apply list_elem_of_further, list_elem_of_here.
Defined.

Lemma load_override_failure_witness :
  ∃ w',
    Sample.load "Broken" (VObj Sample.gtk) Sample.world0
      = (Raise Sample.value_error, w').
Proof.
  apply (load_override_failure Sample.base_attrs Sample.PREFIX
           Sample.import_override Sample.find_module
           "Broken" Sample.gtk (foreign_attrs Sample.world0 Sample.gtk)
           Sample.gtk_names (VStr "Gtk") Sample.world0
           Sample.value_error (Some 4%nat)).
  - vm_compute. reflexivity.
  - vm_compute. reflexivity.
  - vm_compute. reflexivity.
  - reflexivity.
Defined.

Lemma load_drains_registry_witness :
  _deprecated_attrs
      (run_effect (Sample.import_override "pgi.overrides.Gtk") Sample.world0)
    !! "Gtk" = Some [("OLD_CONST", "Gtk.Const.NEW")] ∧
  _deprecated_attrs Sample.loaded !! "Gtk" = None.
Proof.
  split; [vm_compute; reflexivity|].
  apply (load_drains_registry Sample.base_attrs Sample.PREFIX
           Sample.import_override Sample.find_module spec_reraise
           "Gtk" (VObj Sample.gtk) Sample.world0 Sample.gtk_override_vars
           (VObj Sample.proxy) Sample.loaded).
  - vm_compute. reflexivity.
  - vm_compute. reflexivity.
Defined.




(** * Further properties *)

(** ** Insertion-ordered dictionaries *)

Section dict_facts.
Context {V : Type}.
Implicit Types (d : list (string * V)) (k : string) (v : V).

Lemma dict_get_None d k : dict_get d k = None ↔ k ∉ d.*1.
Proof.
  induction d as [|[k' v'] d IH]; simpl.
  - split; [intros _; apply not_elem_of_nil|done].
  - rewrite not_elem_of_cons. case_decide; [|by rewrite IH; tauto].
    split; [done|]. intros [? _]. done.
Qed.

Lemma dict_get_Some_elem d k v : dict_get d k = Some v → (k, v) ∈ d.
Proof.
  induction d as [|[k' v'] d IH]; simpl; [done|].
  case_decide; intros ?; simplify_eq; [left|right; auto].
Qed.

Lemma dict_get_elem d k v : NoDup d.*1 → (k, v) ∈ d → dict_get d k = Some v.
Proof.
  induction d as [|[k' v'] d IH]; simpl; intros Hnd Hin.
  - by apply elem_of_nil in Hin.
  - apply NoDup_cons in Hnd as [Hk' Hnd].
    apply elem_of_cons in Hin as [?|Hin]; simplify_eq.
    + by rewrite decide_True.
    + rewrite decide_False; [by apply IH|].
      intros ->. apply Hk'. apply list_elem_of_fmap. by exists (k', v).
Qed.

Lemma dict_get_set_eq d k v : dict_get (dict_set d k v) k = Some v.
Proof.
  induction d as [|[k' v'] d IH]; simpl.
  - by rewrite decide_True.
  - case_decide; simpl; [by rewrite decide_True|by rewrite decide_False].
Qed.

Lemma dict_get_set_ne d k k' v :
  k ≠ k' → dict_get (dict_set d k v) k' = dict_get d k'.
Proof.
  intros Hne. induction d as [|[k0 v0] d IH]; simpl.
  - by rewrite decide_False.
  - case_decide; simplify_eq; simpl.
    + by rewrite !decide_False.
    + by rewrite IH.
Qed.

Lemma dict_get_pop_ne d k k' :
  k ≠ k' → dict_get (dict_pop d k) k' = dict_get d k'.
Proof.
  intros Hne. induction d as [|[k0 v0] d IH]; simpl; [done|].
  case_decide; simplify_eq; simpl.
  - by rewrite decide_False.
  - by rewrite IH.
Qed.

Lemma dict_pop_keys d k k' : k' ∈ (dict_pop d k).*1 → k' ∈ d.*1.
Proof.
  induction d as [|[k0 v0] d IH]; simpl; [done|].
  case_decide; simpl.
  - by right.
  - rewrite !elem_of_cons. intros [?|?]; auto.
Qed.

Lemma dict_set_keys d k v k' :
  k' ∈ (dict_set d k v).*1 ↔ k' = k ∨ k' ∈ d.*1.
Proof.
  induction d as [|[k0 v0] d IH]; simpl.
  - rewrite elem_of_cons. by rewrite elem_of_nil.
  - case_decide; simplify_eq; simpl; rewrite !elem_of_cons.
    + tauto.
    + rewrite IH. tauto.
Qed.

(** The keys of a dictionary stay pairwise distinct. *)
Lemma dict_set_NoDup d k v : NoDup d.*1 → NoDup (dict_set d k v).*1.
Proof.
  induction d as [|[k0 v0] d IH]; simpl; intros Hnd.
  - apply NoDup_singleton.
  - apply NoDup_cons in Hnd as [Hk0 Hnd].
    case_decide; simplify_eq; simpl; apply NoDup_cons; split; auto.
    rewrite dict_set_keys. intros [?|?]; done.
Qed.

Lemma dict_pop_NoDup d k : NoDup d.*1 → NoDup (dict_pop d k).*1.
Proof.
  induction d as [|[k0 v0] d IH]; simpl; intros Hnd; [done|].
  apply NoDup_cons in Hnd as [Hk0 Hnd].
  case_decide; simpl; [done|]. apply NoDup_cons; split; auto.
  intros Hin. by apply Hk0, (dict_pop_keys _ k).
Qed.

Lemma dict_get_pop_eq d k : NoDup d.*1 → dict_get (dict_pop d k) k = None.
Proof.
  induction d as [|[k0 v0] d IH]; simpl; intros Hnd; [done|].
  apply NoDup_cons in Hnd as [Hk0 Hnd].
  case_decide; simplify_eq; simpl.
  - by apply dict_get_None.
  - rewrite decide_False by done. auto.
Qed.

Lemma dict_update_NoDup d other : NoDup d.*1 → NoDup (dict_update d other).*1.
Proof.
  unfold dict_update. revert d.
  induction other as [|[k v] other IH]; intros d Hnd; simpl; [done|].
  by apply IH, dict_set_NoDup.
Qed.

Lemma dict_update_keys d other k :
  k ∈ (dict_update d other).*1 ↔ k ∈ d.*1 ∨ k ∈ other.*1.
Proof.
  unfold dict_update. revert d.
  induction other as [|[k0 v0] other IH]; intros d; simpl.
  - rewrite elem_of_nil. tauto.
  - rewrite IH, dict_set_keys, elem_of_cons. tauto.
Qed.

Lemma dict_get_update_notin d other k :
  k ∉ other.*1 → dict_get (dict_update d other) k = dict_get d k.
Proof.
  unfold dict_update. revert d.
  induction other as [|[k0 v0] other IH]; intros d Hk; simpl; [done|].
  simpl in Hk. apply not_elem_of_cons in Hk as [Hne Hk].
  rewrite IH by done. by apply dict_get_set_ne.
Qed.

(** [update] lets the entries of its argument win. *)
Lemma dict_get_update_in d other k v :
  NoDup other.*1 → (k, v) ∈ other → dict_get (dict_update d other) k = Some v.
Proof.
  unfold dict_update. revert d.
  induction other as [|[k0 v0] other IH]; intros d Hnd Hin; simpl.
  - by apply elem_of_nil in Hin.
  - simpl in Hnd. apply NoDup_cons in Hnd as [Hk0 Hnd].
    apply elem_of_cons in Hin as [?|Hin]; simplify_eq.
    + change (foldl _ ?a other) with (dict_update a other).
      rewrite dict_get_update_notin by done. apply dict_get_set_eq.
    + by apply IH.
Qed.

(** Updating with keys that are all new appends them in order. *)
Lemma dict_update_fresh d other :
  NoDup (d ++ other).*1 → dict_update d other = d ++ other.
Proof.
  unfold dict_update. revert d.
  induction other as [|[k v] other IH]; intros d Hnd; simpl.
  - by rewrite app_nil_r.
  - assert (Hset : dict_set d k v = d ++ [(k, v)]).
    { clear IH. rewrite fmap_app in Hnd. simpl in Hnd.
      apply NoDup_app in Hnd as (_ & Hdis & _).
      assert (Hk : k ∉ d.*1) by (intros ?; eapply Hdis; [done|left]).
      clear Hdis. induction d as [|[k0 v0] d IHd]; simpl; [done|].
      simpl in Hk. apply not_elem_of_cons in Hk as [? ?].
      rewrite decide_False by done. by rewrite IHd. }
    rewrite Hset, IH; [by rewrite <-app_assoc|].
    by rewrite <-app_assoc.
Qed.

Lemma dict_of_pairs_keys (pairs : list (string * V)) k :
  k ∈ (dict_of_pairs pairs).*1 ↔ k ∈ pairs.*1.
Proof.
  unfold dict_of_pairs. rewrite dict_update_keys. simpl.
  rewrite elem_of_nil. tauto.
Qed.
End dict_facts.

(** ** The initializer wrapper: what reaches the wrapped initializer *)

Lemma zip_keys_take {A} (names : list string) (args : list A) k :
  k ∈ (zip names args).*1 → k ∈ take (length args) names.
Proof.
  revert args. induction names as [|n names IH]; intros [|a args]; simpl;
    try (intros Hin; by apply elem_of_nil in Hin).
  rewrite !elem_of_cons. intros [?|?]; auto.
Qed.

Section new_init_facts.
Variable str_other : pyval → string.
Context {R : Type}.
Variable super_init_func : InitCall → R.
Variable arg_names ignore : list string.
Variable deprecated_aliases : list (string * string).
Variable deprecated_defaults : list (string * pyval).
Variable category : string.
Variable stacklevel : Z.

Local Abbreviation wrapped_init :=
  (new_init str_other super_init_func arg_names ignore deprecated_aliases
     deprecated_defaults category stacklevel).
Local Abbreviation merged args kwargs :=
  (merge_positional arg_names category stacklevel args kwargs).2.
Local Abbreviation default_step := (default_step deprecated_defaults).

(** The keywords of the call, stage by stage. *)
Lemma new_init_keywords self args kwargs :
  ∃ ws,
    wrapped_init self args kwargs =
      (ws,
       super_init_func
         {| call_positional := [self];
            call_keywords :=
              foldl ignore_step
                (foldl default_step
                   ((foldl alias_step (merged args kwargs, [])
                       deprecated_aliases).1, [])
                   deprecated_defaults).1
                ignore |}).
Proof.
  unfold new_init.
  destruct (merge_positional _ _ _ args kwargs) as [ws1 kw0]. simpl.
  destruct (foldl alias_step (kw0, []) deprecated_aliases) as [kw1 used].
  simpl.
  destruct (foldl default_step (kw1, []) deprecated_defaults) as [kw2 dused].
  simpl. eauto.
Qed.

Lemma merged_NoDup args kwargs : NoDup (merged args kwargs).*1.
Proof.
  unfold merge_positional.
  destruct args; simpl; apply dict_update_NoDup.
  - apply NoDup_nil_2.
  - unfold dict_of_pairs. apply dict_update_NoDup, NoDup_nil_2.
Qed.

Lemma merged_explicit args kwargs k v :
  NoDup kwargs.*1 → (k, v) ∈ kwargs → dict_get (merged args kwargs) k = Some v.
Proof.
  intros Hnd Hin. unfold merge_positional.
  destruct args; simpl; by apply dict_get_update_in.
Qed.

Lemma merged_absent args kwargs k :
  k ∉ kwargs.*1 → k ∉ take (length args) arg_names →
  dict_get (merged args kwargs) k = None.
Proof.
  intros Hkw Hpos. unfold merge_positional.
  destruct args as [|a args]; simpl;
    rewrite dict_get_update_notin by done; [done|].
  apply dict_get_None. rewrite dict_of_pairs_keys.
  intros Hin. by apply Hpos, zip_keys_take.
Qed.

(** *** The alias loop *)

Lemma alias_fold_NoDup aliases kw used :
  NoDup kw.*1 → NoDup (foldl alias_step (kw, used) aliases).1.*1.
Proof.
  revert kw used. induction aliases as [|[key alias] aliases IH];
    intros kw used Hnd; simpl; [done|].
  destruct (dict_get kw alias); [|by apply IH].
  by apply IH, dict_set_NoDup, dict_pop_NoDup.
Qed.

(** A name the alias table does not mention passes the loop untouched. *)
Lemma alias_fold_other aliases kw used k :
  (∀ key alias, (key, alias) ∈ aliases → k ≠ key ∧ k ≠ alias) →
  dict_get (foldl alias_step (kw, used) aliases).1 k = dict_get kw k.
Proof.
  revert kw used. induction aliases as [|[key alias] aliases IH];
    intros kw used Hk; simpl; [done|].
  destruct (Hk key alias) as [Hkey Halias]; [left|].
  assert (Hrest : ∀ key alias, (key, alias) ∈ aliases → k ≠ key ∧ k ≠ alias)
    by (intros ???; apply Hk; by right).
  destruct (dict_get kw alias); rewrite IH by done; [|done].
  rewrite dict_get_set_ne by done. by apply dict_get_pop_ne.
Qed.

(** *** The defaults loop *)

Lemma default_fold_NoDup defaults kw used :
  NoDup kw.*1 → NoDup (foldl default_step (kw, used) defaults).1.*1.
Proof.
  revert kw used. induction defaults as [|[key value] defaults IH];
    intros kw used Hnd; simpl; [done|].
  destruct (dict_mem kw key); [by apply IH|].
  by apply IH, dict_set_NoDup.
Qed.

(** A keyword that is present is never replaced by a default. *)
Lemma default_fold_present defaults kw used k v :
  dict_get kw k = Some v →
  dict_get (foldl default_step (kw, used) defaults).1 k = Some v.
Proof.
  revert kw used. induction defaults as [|[key value] defaults IH];
    intros kw used Hk; simpl; [done|].
  unfold dict_mem. destruct (dict_get kw key) eqn:Hkey; [by apply IH|].
  apply IH. rewrite dict_get_set_ne; [done|]. intros ->. congruence.
Qed.

(** An absent keyword that has a default gets it. *)
Lemma default_fold_injects defaults kw used k dv :
  dict_get deprecated_defaults k = Some dv →
  k ∈ defaults.*1 →
  dict_get kw k = None →
  dict_get (foldl default_step (kw, used) defaults).1 k = Some dv.
Proof.
  intros Hdv. revert kw used.
  induction defaults as [|[key value] defaults IH];
    intros kw used Hin Hk; simpl.
  - by apply elem_of_nil in Hin.
  - destruct (decide (key = k)) as [->|Hne].
    + unfold dict_mem. rewrite Hk, Hdv. simpl.
      apply default_fold_present, dict_get_set_eq.
    + simpl in Hin. apply elem_of_cons in Hin as [?|Hin]; [done|].
      destruct (dict_mem kw key); apply IH; try done.
      by rewrite dict_get_set_ne.
Qed.

(** *** The ignore loop *)

Lemma ignore_fold_NoDup keys kw :
  NoDup kw.*1 → NoDup (foldl ignore_step kw keys).*1.
Proof.
  revert kw. induction keys as [|key keys IH]; intros kw Hnd; simpl; [done|].
  apply IH. unfold ignore_step. destruct (dict_mem kw key); [|done].
  by apply dict_pop_NoDup.
Qed.

Lemma ignore_fold_other keys kw k :
  k ∉ keys → dict_get (foldl ignore_step kw keys) k = dict_get kw k.
Proof.
  revert kw. induction keys as [|key keys IH]; intros kw Hk; simpl; [done|].
  apply not_elem_of_cons in Hk as [Hne Hk]. rewrite IH by done.
  unfold ignore_step. destruct (dict_mem kw key); [|done].
  by apply dict_get_pop_ne.
Qed.

Lemma ignore_fold_absent keys kw k :
  dict_get kw k = None → dict_get (foldl ignore_step kw keys) k = None.
Proof.
  revert kw. induction keys as [|key keys IH]; intros kw Hk; simpl; [done|].
  apply IH. unfold ignore_step. destruct (dict_mem kw key); [|done].
  apply dict_get_None. intros Hin. apply dict_pop_keys in Hin.
  by apply dict_get_None in Hk.
Qed.

Lemma ignore_fold_removes keys kw k :
  NoDup kw.*1 → k ∈ keys → dict_get (foldl ignore_step kw keys) k = None.
Proof.
  revert kw. induction keys as [|key keys IH]; intros kw Hnd Hk; simpl.
  - by apply elem_of_nil in Hk.
  - apply elem_of_cons in Hk as [->|Hk].
    + apply ignore_fold_absent. unfold ignore_step, dict_mem.
      destruct (dict_get kw key) eqn:Hget; [|done].
      by apply dict_get_pop_eq.
    + apply IH; [|done]. unfold ignore_step.
      destruct (dict_mem kw key); [|done]. by apply dict_pop_NoDup.
Qed.

Lemma alias_fold_idle aliases kw used :
  (∀ key alias, (key, alias) ∈ aliases → dict_get kw alias = None) →
  foldl alias_step (kw, used) aliases = (kw, used).
Proof.
  induction aliases as [|[key alias] aliases IH]; intros Hk; simpl; [done|].
  rewrite (Hk key alias) by left. apply IH. intros ???. eapply Hk. by right.
Qed.

Lemma default_fold_idle defaults kw used :
  (∀ key, key ∈ defaults.*1 → dict_mem kw key = true) →
  foldl default_step (kw, used) defaults = (kw, used).
Proof.
  induction defaults as [|[key value] defaults IH]; intros Hk; simpl; [done|].
  rewrite (Hk key) by left. apply IH. intros ??. apply Hk. by right.
Qed.


Lemma ignore_fold_idle keys kw :
  (∀ key, key ∈ keys → dict_mem kw key = false) →
  foldl ignore_step kw keys = kw.
Proof.
  induction keys as [|key keys IH]; intros Hk; simpl; [done|].
  unfold ignore_step at 2. rewrite (Hk key) by left.
  apply IH. intros ??. apply Hk. by right.
Qed.

(** X1. A keyword given explicitly reaches the wrapped initializer with
    the value given, whatever positional arguments and defaults there
    are, as long as the alias table does not mention the name and it is
    not ignored. *)
Theorem new_init_explicit_keyword self args kwargs k v :
  NoDup kwargs.*1 →
  (k, v) ∈ kwargs →
  (∀ key alias, (key, alias) ∈ deprecated_aliases → k ≠ key ∧ k ≠ alias) →
  k ∉ ignore →
  ∃ ws new_kwargs,
    new_init str_other super_init_func arg_names ignore deprecated_aliases
      deprecated_defaults category stacklevel self args kwargs =
      (ws, super_init_func {| call_positional := [self];
                              call_keywords := new_kwargs |}) ∧
    dict_get new_kwargs k = Some v.
Proof.
  intros Hnd Hin Halias Hignore.
  destruct (new_init_keywords self args kwargs) as [ws Hcall].
  eexists _, _. split; [exact Hcall|].
  rewrite ignore_fold_other by done.
  apply default_fold_present.
  rewrite alias_fold_other by done.
  by apply merged_explicit.
Qed.

(** X2. No name of [ignore] is among the keywords the wrapped
    initializer receives, for any call. *)
Theorem new_init_ignored_dropped self args kwargs k :
  k ∈ ignore →
  ∃ ws new_kwargs,
    new_init str_other super_init_func arg_names ignore deprecated_aliases
      deprecated_defaults category stacklevel self args kwargs =
      (ws, super_init_func {| call_positional := [self];
                              call_keywords := new_kwargs |}) ∧
    dict_get new_kwargs k = None.
Proof.
  intros Hk.
  destruct (new_init_keywords self args kwargs) as [ws Hcall].
  eexists _, _. split; [exact Hcall|].
  apply ignore_fold_removes; [|done].
  apply default_fold_NoDup, alias_fold_NoDup, merged_NoDup.
Qed.

(** X3. A call in the new style is passed through in silence: without
    positional arguments, with no alias among the keywords, with every
    default given explicitly and no ignored name used, the wrapped
    initializer gets the keywords as they are and no warning is
    emitted. *)
Theorem new_init_keyword_call_silent self kwargs :
  NoDup kwargs.*1 →
  (∀ key alias, (key, alias) ∈ deprecated_aliases → alias ∉ kwargs.*1) →
  (∀ key, key ∈ deprecated_defaults.*1 → key ∈ kwargs.*1) →
  (∀ key, key ∈ ignore → key ∉ kwargs.*1) →
  new_init str_other super_init_func arg_names ignore deprecated_aliases
      deprecated_defaults category stacklevel self [] kwargs =
    ([], super_init_func {| call_positional := [self];
                            call_keywords := kwargs |}).
Proof.
  intros Hnd Halias Hdef Hign. unfold new_init, merge_positional.
  rewrite (dict_update_fresh [] kwargs) by done. simpl.
  rewrite alias_fold_idle; last first.
  { intros key alias Hin. apply dict_get_None. by eapply Halias. }
  rewrite default_fold_idle; last first.
  { intros key Hin. unfold dict_mem.
    destruct (dict_get kwargs key) eqn:Hget; [done|].
    apply dict_get_None in Hget. by apply Hdef in Hin. }
  rewrite ignore_fold_idle; [done|].
  intros key Hin. unfold dict_mem.
  destruct (dict_get kwargs key) eqn:Hget; [|done].
  apply dict_get_Some_elem in Hget. exfalso. apply (Hign key Hin).
  apply list_elem_of_fmap. by eexists (_, _).
Qed.


(** X5. A default is injected when its key is missing: a key of
    [deprecated_defaults] that is given neither by keyword nor
    positionally, that no alias maps to and that is not ignored reaches
    the wrapped initializer with the default value. *)
Theorem new_init_default_injected self args kwargs k dv :
  dict_get deprecated_defaults k = Some dv →
  k ∉ kwargs.*1 →
  k ∉ take (length args) arg_names →
  (∀ key alias, (key, alias) ∈ deprecated_aliases → k ≠ key ∧ k ≠ alias) →
  k ∉ ignore →
  ∃ ws new_kwargs,
    new_init str_other super_init_func arg_names ignore deprecated_aliases
      deprecated_defaults category stacklevel self args kwargs =
      (ws, super_init_func {| call_positional := [self];
                              call_keywords := new_kwargs |}) ∧
    dict_get new_kwargs k = Some dv.
Proof.
  intros Hdv Hkw Hpos Halias Hignore.
  destruct (new_init_keywords self args kwargs) as [ws Hcall].
  eexists _, _. split; [exact Hcall|].
  rewrite ignore_fold_other by done.
  apply default_fold_injects; [done| |].
  - apply dict_get_Some_elem in Hdv.
    apply list_elem_of_fmap. by eexists (_, _).
  - rewrite alias_fold_other by done. by apply merged_absent.
Qed.
End new_init_facts.

(** The wrapper of the scenario above, with a name to ignore. *)
Lemma new_init_explicit_keyword_witness :
  ∃ ws new_kwargs,
    new_init (λ _, EmptyString) id ["a"; "b"] ["skip"] [("x", "old_x")]
        [("y", VInt 1)] PyGIDeprecationWarning 2 VNone
        [VInt 10; VInt 20] [("a", VInt 99)] =
      (ws, {| call_positional := [VNone]; call_keywords := new_kwargs |}) ∧
    dict_get new_kwargs "a" = Some (VInt 99).
Proof.
  apply (new_init_explicit_keyword (λ _, EmptyString) id ["a"; "b"] ["skip"]
           [("x", "old_x")] [("y", VInt 1)] PyGIDeprecationWarning 2 VNone
           [VInt 10; VInt 20] [("a", VInt 99)] "a" (VInt 99)).
  - apply NoDup_singleton.
  - apply list_elem_of_here.
  - intros key alias Hin. apply list_elem_of_singleton in Hin.
    by simplify_eq.
  - by intros Hin%list_elem_of_singleton.
Defined.

Lemma new_init_ignored_dropped_witness :
  ∃ ws new_kwargs,
    new_init (λ _, EmptyString) id ["a"; "b"] ["skip"] [("x", "old_x")]
        [("y", VInt 1)] PyGIDeprecationWarning 2 VNone
        [] [("skip", VInt 3); ("a", VInt 1)] =
      (ws, {| call_positional := [VNone]; call_keywords := new_kwargs |}) ∧
    dict_get new_kwargs "skip" = None.
Proof.
  apply (new_init_ignored_dropped (λ _, EmptyString) id ["a"; "b"] ["skip"]
           [("x", "old_x")] [("y", VInt 1)] PyGIDeprecationWarning 2 VNone
           [] [("skip", VInt 3); ("a", VInt 1)] "skip").
  apply list_elem_of_here.
Defined.

Lemma new_init_keyword_call_silent_witness :
  new_init (λ _, EmptyString) id ["a"; "b"] ["skip"] [("x", "old_x")]
      [("y", VInt 1)] PyGIDeprecationWarning 2 VNone
      [] [("a", VInt 1); ("y", VInt 2)] =
    ([], {| call_positional := [VNone];
            call_keywords := [("a", VInt 1); ("y", VInt 2)] |}).
Proof.
  apply (new_init_keyword_call_silent (λ _, EmptyString) id ["a"; "b"] ["skip"]
           [("x", "old_x")] [("y", VInt 1)] PyGIDeprecationWarning 2 VNone
           [("a", VInt 1); ("y", VInt 2)]).
  - simpl. apply NoDup_cons. split; [|apply NoDup_singleton].
    by intros Hin%list_elem_of_singleton.
  - intros key alias Hin%list_elem_of_singleton. simplify_eq. simpl.
    intros Hin. apply elem_of_cons in Hin as [?|Hin%list_elem_of_singleton];
      done.
  - simpl. intros key Hin%list_elem_of_singleton. subst.
    apply list_elem_of_further, list_elem_of_here.
  - intros key Hin%list_elem_of_singleton. subst. simpl.
    intros Hin. apply elem_of_cons in Hin as [?|Hin%list_elem_of_singleton];
      done.
Defined.


Lemma new_init_default_injected_witness :
  ∃ ws new_kwargs,
    new_init (λ _, EmptyString) id ["a"; "b"] ["skip"] [("x", "old_x")]
        [("y", VInt 1)] PyGIDeprecationWarning 2 VNone
        [VInt 10] [("b", VInt 2)] =
      (ws, {| call_positional := [VNone]; call_keywords := new_kwargs |}) ∧
    dict_get new_kwargs "y" = Some (VInt 1).
Proof.
  apply (new_init_default_injected (λ _, EmptyString) id ["a"; "b"] ["skip"]
           [("x", "old_x")] [("y", VInt 1)] PyGIDeprecationWarning 2 VNone
           [VInt 10] [("b", VInt 2)] "y" (VInt 1)).
  - reflexivity.
  - simpl. by intros Hin%list_elem_of_singleton.
  - simpl. by intros Hin%list_elem_of_singleton.
  - intros key alias Hin%list_elem_of_singleton. by simplify_eq.
  - by intros Hin%list_elem_of_singleton.
Defined.

(** ** The success-flag wrapper: errors and the failure configuration *)

Section strip_boolean_result_more.
Context {Args : Type}.
Variable method : Args → Outcome pyval.

(** X6. The failure configuration plays no part unless the flag is
    falsy: when the method raises, the wrapper raises the same exception,
    and when the flag is truthy, the result is the same for every choice
    of [exc_type], [exc_str] and [fail_ret]. *)
Theorem strip_boolean_result_config_unused args :
  (∀ e, method args = Raise e →
     ∀ exc_type exc_str fail_ret,
       strip_boolean_result method exc_type exc_str fail_ret args = Raise e) ∧
  (∀ ret flag, method args = Ret ret → py_getitem ret 0 = Ret flag →
     truthy flag = true →
     ∀ exc_type exc_str fail_ret exc_type' exc_str' fail_ret',
       strip_boolean_result method exc_type exc_str fail_ret args =
       strip_boolean_result method exc_type' exc_str' fail_ret' args).
Proof.
  split.
  - intros e He ???. unfold strip_boolean_result. by rewrite He.
  - intros ret flag Hret Hflag Htrue ??????.
    unfold strip_boolean_result. by rewrite Hret, Hflag, Htrue.
Qed.

(** X7. A result without a flag is an error of its own: an empty tuple,
    list or string makes the wrapper raise [IndexError], and [None], a
    bool or an int makes it raise [TypeError]; [fail_ret] is not
    returned and [exc_type] is not raised. *)
Theorem strip_boolean_result_no_flag args ret exc_type exc_str fail_ret :
  method args = Ret ret →
  (ret = VTuple [] ∨ ret = VList [] ∨ ret = VStr EmptyString →
     ∃ e, strip_boolean_result method exc_type exc_str fail_ret args = Raise e ∧
          exn_class e = IndexError) ∧
  (ret = VNone ∨ (∃ b, ret = VBool b) ∨ (∃ z, ret = VInt z) →
     ∃ e, strip_boolean_result method exc_type exc_str fail_ret args = Raise e ∧
          exn_class e = TypeError).
Proof.
  intros Hret. unfold strip_boolean_result. rewrite Hret.
  split.
  - intros [->|[->| ->]]; eexists; split; reflexivity.
  - intros [->|[[b ->]|[z ->]]]; eexists; split; reflexivity.
Qed.

(** X8. On failure the outputs are dropped, and a falsy [exc_str] (not
    only [None]: the empty string too) gives the exception the message
    ['call failed']. *)
Theorem strip_boolean_result_default_message args flag outs cls exc_str fail_ret :
  method args = Ret (VTuple (flag :: outs)) ∨
  method args = Ret (VList (flag :: outs)) →
  truthy flag = false →
  truthy exc_str = false →
  strip_boolean_result method (Some cls) exc_str fail_ret args =
    Raise (Exn cls [VStr "call failed"]).
Proof.
  intros Hret Hflag Hstr. unfold strip_boolean_result, py_or.
  destruct Hret as [-> | ->]; cbn; by rewrite Hflag, Hstr.
Qed.
End strip_boolean_result_more.

Lemma strip_boolean_result_config_unused_witness :
  let f : pyval → Outcome pyval :=
    λ v, match v with VNone => Raise (Exn KeyError [VStr "k"]) | _ => Ret v end in
  strip_boolean_result f (Some TypeError) (VStr "no") (VInt 0) VNone
    = Raise (Exn KeyError [VStr "k"]) ∧
  strip_boolean_result f (Some TypeError) (VStr "no") (VInt 0)
      (VTuple [VInt 1; VInt 7]) =
    strip_boolean_result f None VNone VNone (VTuple [VInt 1; VInt 7]).
Proof.
  intros f. split.
  - apply (proj1 (strip_boolean_result_config_unused f VNone)
             (Exn KeyError [VStr "k"]) eq_refl).
  - apply (proj2 (strip_boolean_result_config_unused f (VTuple [VInt 1; VInt 7]))
             (VTuple [VInt 1; VInt 7]) (VInt 1) eq_refl eq_refl eq_refl).
Defined.

Lemma strip_boolean_result_no_flag_witness :
  let f : pyval → Outcome pyval := Ret in
  (∃ e, strip_boolean_result f None VNone (VInt 0) (VTuple []) = Raise e ∧
        exn_class e = IndexError) ∧
  (∃ e, strip_boolean_result f None VNone (VInt 0) VNone = Raise e ∧
        exn_class e = TypeError).
Proof.
  intros f. split.
  - apply (proj1 (strip_boolean_result_no_flag f (VTuple []) (VTuple [])
                    None VNone (VInt 0) eq_refl)). by left.
  - apply (proj2 (strip_boolean_result_no_flag f VNone VNone
                    None VNone (VInt 0) eq_refl)). by left.
Defined.

Lemma strip_boolean_result_default_message_witness :
  strip_boolean_result (Ret : pyval → Outcome pyval) (Some KeyError)
      (VStr EmptyString) VNone (VTuple [VBool false; VInt 7]) =
    Raise (Exn KeyError [VStr "call failed"]).
Proof.
  apply (strip_boolean_result_default_message Ret
           (VTuple [VBool false; VInt 7]) (VBool false) [VInt 7]
           KeyError (VStr EmptyString) VNone).
  - by left.
  - reflexivity.
  - reflexivity.
Defined.

(** ** Reading attributes changes nothing but the warnings *)


Lemma set_warnings_log_app ws1 ws2 w :
  set_warnings_log (λ log, log ++ ws2) (set_warnings_log (λ log, log ++ ws1) w)
  = set_warnings_log (λ log, log ++ (ws1 ++ ws2)) w.
Proof. destruct w. unfold set_warnings_log. cbn. by rewrite app_assoc. Qed.






Lemma reads_only_try_except {A} (body : M A) handles (handler : exn → M A) :
  reads_only body → (∀ e, reads_only (handler e)) →
  reads_only (try_except body handles handler).
Proof.
  intros Hm Hk w. unfold try_except. destruct (Hm w) as [ws1 H1].
  destruct (body w) as [[a|e] w1]; simpl in *; [by eauto|].
  destruct (handles e); [|by eauto].
  destruct (Hk e w1) as [ws2 H2]. exists (ws1 ++ ws2).
  by rewrite H2, H1, set_warnings_log_app.
Qed.


Section reading.
Variable base_attrs : gmap string pyval.


End reading.

(** ** The proxy in front of the introspected module *)

Section proxy_more.
Variable base_attrs : gmap string pyval.

(** X10. A name that neither the proxy class (own or inherited
    attributes) nor the instance [__dict__] has is looked up on the
    wrapped module: the proxy returns what the module has under the
    name, or raises the [AttributeError] the module raises, and the
    state stays as it is. *)
Theorem proxy_getattr_fallthrough w p cls dict cname cdict m attrs names name :
  heap w !! p = Some (OProxy cls dict) →
  heap w !! cls = Some (OClass cname cdict) →
  dict !! "_introspection_module" = Some (VObj m) →
  is_data_descriptor (cdict !! "_introspection_module") = false →
  heap w !! m = Some (OForeign attrs names) →
  cdict !! name = None →
  base_attrs !! name = None →
  dict !! name = None →
  getattr base_attrs (VObj p) name w = getattr base_attrs (VObj m) name w ∧
  getattr base_attrs (VObj p) name w =
    (match attrs !! name with
     | Some v => Ret v
     | None => Raise (Exn AttributeError [VStr name])
     end, w).
Proof.
  intros Hp Hc Him Hnd Hm Hcn Hbn Hdn.
  pose proof (getattr_through_proxy base_attrs _ _ _ _ _ _ _ _ _ _
                Hp Hc Him Hnd Hm Hcn Hbn Hdn) as Hproxy.
  pose proof (getattr_foreign base_attrs _ _ _ _ name Hm) as Hmod.
  split; [|exact Hproxy]. exact (eq_trans Hproxy (eq_sym Hmod)).
Qed.

(** X11. Assigning through the proxy never writes the wrapped module:
    for a name without a descriptor, the value goes into the instance
    [__dict__] and no other object changes; from then on the proxy
    answers with that value, also where the module has the name. *)
Theorem proxy_setattr_shadows w p cls dict cname cdict name v :
  heap w !! p = Some (OProxy cls dict) →
  heap w !! cls = Some (OClass cname cdict) →
  is_data_descriptor (cdict !! name) = false →
  let w' := set_heap (<[p := OProxy cls (<[name:=v]> dict)]>) w in
  setattr base_attrs (VObj p) name v w = (Ret tt, w') ∧
  getattr base_attrs (VObj p) name w' = (Ret v, w') ∧
  ∀ l, l ≠ p → heap w' !! l = heap w !! l.
Proof.
  intros Hp Hc Hnd w'.
  assert (Hne : p ≠ cls) by (intros ->; congruence).
  split; [|split].
  - unfold setattr, recursion_limit. by eapply setattr_rec_instance.
  - unfold getattr, recursion_limit.
    apply (getattr_rec_instance base_attrs _ w' p cls (<[name:=v]> dict)
             cname cdict); subst w'; simpl.
    + by rewrite lookup_insert_eq.
    + by rewrite lookup_insert_ne.
    + done.
    + by rewrite lookup_insert_eq.
  - intros l Hl. subst w'. simpl. by rewrite lookup_insert_ne.
Qed.

(** X12. Deleting through the proxy never reaches the wrapped module:
    [delattr] of a name that is not in the instance [__dict__] and has
    no descriptor raises [AttributeError] and changes nothing, also when
    the module has the name and a read would succeed. *)
Theorem proxy_delattr_missing w p cls dict cname cdict name :
  heap w !! p = Some (OProxy cls dict) →
  heap w !! cls = Some (OClass cname cdict) →
  is_data_descriptor (cdict !! name) = false →
  dict !! name = None →
  delattr base_attrs (VObj p) name w = (Raise (Exn AttributeError [VStr name]), w).
Proof.
  intros Hp Hc Hnd Hdn. unfold delattr.
  rewrite (bind_Ret _ _ _ _ _ (deref_Some _ _ _ Hp)).
  rewrite (bind_Ret _ _ _ _ _ (deref_Some _ _ _ Hc)).
  rewrite <-(class_lookup_descriptor base_attrs) in Hnd. rewrite Hdn.
  by destruct (class_lookup base_attrs cdict name) as [[?|?]|].
Qed.

(** X13. A deprecated attribute read on the proxy class, not on the
    instance, is an [AttributeError] naming the attribute, and no
    warning is emitted. *)
Theorem class_access_deprecated w cls cname cdict name d :
  heap w !! cls = Some (OClass cname cdict) →
  cdict !! name = Some (CDeprecated d) →
  getattr base_attrs (VObj cls) name w =
    (Raise (Exn AttributeError [VStr (_attr d)]), w).
Proof.
  intros Hc Hd. unfold getattr, recursion_limit. cbn [getattr_rec].
  rewrite (bind_Ret _ _ _ _ _ (deref_Some _ _ _ Hc)).
  unfold class_lookup. by rewrite Hd.
Qed.

(** X14. The descriptor warns on every access: reading a deprecated
    attribute twice returns the stored value both times and leaves two
    warnings in the log. *)
Theorem deprecated_read_every_access w p cls dict cname cdict name d :
  heap w !! p = Some (OProxy cls dict) →
  heap w !! cls = Some (OClass cname cdict) →
  cdict !! name = Some (CDeprecated d) →
  (bind (getattr base_attrs (VObj p) name)
     (λ first, bind (getattr base_attrs (VObj p) name)
        (λ second, ret (first, second)))) w =
    (Ret (_value d, _value d),
     set_warnings_log (λ log, log ++ [_warning d; _warning d]) w).
Proof.
  intros Hp Hc Hd.
  assert (Hread : ∀ w0, heap w0 = heap w →
    getattr base_attrs (VObj p) name w0 =
      (Ret (_value d), set_warnings_log (λ log, log ++ [_warning d]) w0)).
  { intros w0 Hw0. unfold getattr, recursion_limit.
    rewrite (getattr_rec_proxy base_attrs _ w0 p cls dict cname cdict)
      by (by rewrite Hw0).
    unfold class_lookup. by rewrite Hd. }
  rewrite (bind_Ret _ _ _ _ _ (Hread w eq_refl)).
  rewrite (bind_Ret _ _ _ _ _
             (Hread (set_warnings_log (λ log, log ++ [_warning d]) w) eq_refl)).
  unfold ret. by rewrite set_warnings_log_app.
Qed.
End proxy_more.

Lemma proxy_getattr_fallthrough_witness :
  getattr Sample.base_attrs (VObj Sample.proxy) "main" Sample.loaded
    = (Ret (VInt 7), Sample.loaded) ∧
  getattr Sample.base_attrs (VObj Sample.proxy) "nothing" Sample.loaded
    = (Raise (Exn AttributeError [VStr "nothing"]), Sample.loaded).
Proof.
  split.
  - etrans.
    + apply (proxy_getattr_fallthrough Sample.base_attrs Sample.loaded
               Sample.proxy Sample.proxy_type
               (instance_dict Sample.loaded Sample.proxy) "GtkProxyModule"
               (class_dict Sample.loaded Sample.proxy_type) Sample.gtk
               (foreign_attrs Sample.loaded Sample.gtk) Sample.gtk_names "main");
        vm_compute; reflexivity.
    + vm_compute. reflexivity.
  - etrans.
    + apply (proxy_getattr_fallthrough Sample.base_attrs Sample.loaded
               Sample.proxy Sample.proxy_type
               (instance_dict Sample.loaded Sample.proxy) "GtkProxyModule"
               (class_dict Sample.loaded Sample.proxy_type) Sample.gtk
               (foreign_attrs Sample.loaded Sample.gtk) Sample.gtk_names
               "nothing");
        vm_compute; reflexivity.
    + vm_compute. reflexivity.
Defined.

Lemma proxy_setattr_shadows_witness :
  ∃ w',
    setattr Sample.base_attrs (VObj Sample.proxy) "main" (VInt 99) Sample.loaded
      = (Ret tt, w') ∧
    getattr Sample.base_attrs (VObj Sample.proxy) "main" w' = (Ret (VInt 99), w') ∧
    heap w' !! Sample.gtk = heap Sample.loaded !! Sample.gtk.
Proof.
  destruct (proxy_setattr_shadows Sample.base_attrs Sample.loaded
              Sample.proxy Sample.proxy_type
              (instance_dict Sample.loaded Sample.proxy) "GtkProxyModule"
              (class_dict Sample.loaded Sample.proxy_type) "main" (VInt 99))
    as (Hset & Hget & Hframe).
  - vm_compute. reflexivity.
  - vm_compute. reflexivity.
  - vm_compute. reflexivity.
  - eexists. split; [exact Hset|]. split; [exact Hget|].
    apply Hframe. discriminate.
Defined.

Lemma proxy_delattr_missing_witness :
  delattr Sample.base_attrs (VObj Sample.proxy) "main" Sample.loaded
    = (Raise (Exn AttributeError [VStr "main"]), Sample.loaded).
Proof.
  apply (proxy_delattr_missing Sample.base_attrs Sample.loaded
           Sample.proxy Sample.proxy_type
           (instance_dict Sample.loaded Sample.proxy) "GtkProxyModule"
           (class_dict Sample.loaded Sample.proxy_type) "main");
    vm_compute; reflexivity.
Defined.

Lemma class_access_deprecated_witness :
  getattr Sample.base_attrs (VObj Sample.proxy_type) "OLD_CONST" Sample.loaded
    = (Raise (Exn AttributeError [VStr "OLD_CONST"]), Sample.loaded).
Proof.
  apply (class_access_deprecated Sample.base_attrs Sample.loaded
           Sample.proxy_type "GtkProxyModule"
           (class_dict Sample.loaded Sample.proxy_type) "OLD_CONST"
           (DeprecatedAttribute_init "Gtk" "OLD_CONST" (VInt 42) "Gtk.Const.NEW"));
    vm_compute; reflexivity.
Defined.

Lemma deprecated_read_every_access_witness :
  ∃ wn,
    (bind (getattr Sample.base_attrs (VObj Sample.proxy) "OLD_CONST")
       (λ first, bind (getattr Sample.base_attrs (VObj Sample.proxy) "OLD_CONST")
          (λ second, ret (first, second)))) Sample.loaded =
      (Ret (VInt 42, VInt 42),
       set_warnings_log (λ log, log ++ [wn; wn]) Sample.loaded).
Proof.
  eexists.
  apply (deprecated_read_every_access Sample.base_attrs Sample.loaded
           Sample.proxy Sample.proxy_type
           (instance_dict Sample.loaded Sample.proxy) "GtkProxyModule"
           (class_dict Sample.loaded Sample.proxy_type) "OLD_CONST"
           (DeprecatedAttribute_init "Gtk" "OLD_CONST" (VInt 42) "Gtk.Const.NEW"));
    vm_compute; reflexivity.
Defined.

(** ** The registry of deprecated attributes *)

Lemma for_each_cons_Ret {A} (x : A) xs (body : A → M unit) w w0 :
  body x w = (Ret tt, w0) → for_each (x :: xs) body w = for_each xs body w0.
Proof. intros Hx. simpl. by rewrite (bind_Ret _ _ _ _ _ Hx). Qed.

(** X15. Registrations for a namespace are kept in the order they were
    made, behind what was registered before; other namespaces are not
    touched; popping the namespace hands the whole list over once, a
    second pop finds nothing. *)
Theorem deprecated_attr_then_pop ns (entries : list (string * string)) w :
  let w1 := (for_each entries (λ e, deprecated_attr ns e.1 e.2) w).2 in
  (pop_deprecated ns w1).1
    = Ret (default [] (_deprecated_attrs w !! ns) ++ entries) ∧
  (∀ ns', ns' ≠ ns → _deprecated_attrs w1 !! ns' = _deprecated_attrs w !! ns') ∧
  (pop_deprecated ns (pop_deprecated ns w1).2).1 = Ret [] ∧
  heap w1 = heap w ∧ sys_modules w1 = sys_modules w.
Proof.
  cbv zeta. unfold pop_deprecated. simpl. rewrite lookup_delete_eq. simpl.
  revert w. induction entries as [|[attr replacement] entries IH]; intros w.
  - simpl. by rewrite app_nil_r.
  - set (w0 := set_deprecated_attrs
        (λ reg, <[ns := default [] (reg !! ns) ++ [(attr, replacement)]]> reg) w).
    rewrite !(for_each_cons_Ret _ _ _ w w0) by done.
    destruct (IH w0) as (Hpop & Hother & _ & Hheap & Hmods).
    split; [|split; [|split; [done|split]]].
    + rewrite Hpop. subst w0. simpl. rewrite lookup_insert_eq. simpl.
      by rewrite <-app_assoc.
    + intros ns' Hne. rewrite Hother by done. subst w0. simpl.
      by rewrite lookup_insert_ne.
    + by rewrite Hheap.
    + by rewrite Hmods.
Qed.

(** ** The loader: preparation, failure of the import, what it returns *)

Section loader_more.
Variable base_attrs : gmap string pyval.
Variable PREFIX : list string.
Variable import_override : string → UnitRun.
Variable find_module : string → option (option nat).
Variable reraise : ExcClass → exn → exn.

Local Abbreviation loader :=
  (load base_attrs PREFIX import_override find_module reraise).

(** The objects [load_prepare] returns did not exist before. *)
Lemma load_prepare_fresh ns module w pt p w1 :
  load_prepare base_attrs PREFIX ns module w = (Ret (pt, p), w1) →
  heap w !! pt = None ∧ heap w !! p = None ∧ pt ≠ p.
Proof.
  unfold load_prepare, new_proxy_type.
  set (cls := OClass (ns +:+ "ProxyModule")
                (<["__module__":=CPlain (VStr this_module)]>
                   (<["__doc__":=CPlain VNone]> ∅))).
  set (pt0 := fresh (dom (heap w))).
  assert (Hpt : heap w !! pt0 = None) by (apply not_elem_of_dom, is_fresh).
  set (wa := set_heap (insert pt0 cls) w).
  rewrite (bind_Ret _ _ w pt0 wa) by done.
  unfold new_proxy.
  set (p0 := fresh (dom (heap wa))).
  assert (Hp : heap wa !! p0 = None) by (apply not_elem_of_dom, is_fresh).
  set (wb := set_heap (insert p0 (OProxy pt0 ∅)) wa).
  unfold bind at 1. rewrite (bind_Ret _ _ wa p0 wb) by done.
  unfold bind at 1.
  destruct (OverridesProxyModule_init base_attrs p0 module wb) as [[[]|e] wc];
    [|done].
  unfold ret at 1. rewrite (bind_Ret _ _ _ _ _ (register_aliases_run _ _ _ _)).
  unfold ret. intros [= <- <- _].
  subst wa. simpl in Hp.
  assert (p0 ≠ pt0) by (intros Heq; rewrite Heq, lookup_insert_eq in Hp; done).
  rewrite lookup_insert_ne in Hp by done. done.
Qed.

(** X16. With an override module that was evaluated, [load] never
    returns the module it was given: what it returns is an object that
    did not exist when [load] was called. *)
Theorem load_with_override_returns_new_object ns module w override_vars v w' :
  run_result (import_override (this_module +:+ "." +:+ ns)) = Ret override_vars →
  loader ns module w = (Ret v, w') →
  ∃ p, v = VObj p ∧ heap w !! p = None.
Proof.
  intros Hrun Hload.
  destruct (load_prepare base_attrs PREFIX ns module w) as [[[pt p]|e] w1] eqn:Hprep.
  2: { by rewrite (load_prepare_raises _ _ _ _ _ _ _ _ _ _ Hprep) in Hload. }
  rewrite (load_unfold _ _ _ _ _ _ _ _ _ _ _ Hprep), Hrun in Hload.
  destruct (load_prepare_fresh _ _ _ _ _ _ Hprep) as (_ & Hp & _).
  exists p. split; [|done].
  unfold merge_override in Hload.
  set (w2 := run_effect _ w1) in Hload. clearbody w2.
  unfold bind at 1, lift in Hload.
  destruct (py_iter _) as [exports|e]; [|done].
  unfold bind at 1 in Hload.
  destruct (for_each exports _ w2) as [[[]|e] w3]; [|done].
  unfold bind at 1, pop_deprecated in Hload.
  unfold bind in Hload.
  destruct (for_each _ _ (set_deprecated_attrs (delete ns) w3)) as [[[]|e] w4];
    [|done].
  unfold ret in Hload. by simplify_eq.
Qed.

(** X17. An exception of the import that is not an [Exception]
    (an exit, an interrupt) passes through [load] as it is: the handler
    does not run, whatever [imp.find_module] and [_compat.reraise] do. *)
Theorem load_base_exception ns m attrs names name w err :
  heap w !! m = Some (OForeign attrs names) →
  attrs !! "__name__" = Some name →
  run_result (import_override (this_module +:+ "." +:+ ns)) = Raise err →
  is_Exception (exn_class err) = false →
  ∃ w', loader ns (VObj m) w = (Raise err, w').
Proof.
  intros Hm Hname Hrun Hexc.
  destruct (load_prepare_ok base_attrs PREFIX ns m attrs names name w Hm Hname)
    as (pt & p & w1 & Hprep).
  rewrite (load_unfold _ _ _ _ _ _ _ _ _ _ _ Hprep), Hrun, Hexc. eauto.
Qed.

(** X18. When the override module exists and its evaluation raises an
    [Exception], [load] closes the file [imp.find_module] opened and then
    raises what [_compat.reraise] makes of [ImportError] and the
    exception caught. *)
Theorem load_failure_closes_file ns m attrs names name w err f :
  heap w !! m = Some (OForeign attrs names) →
  attrs !! "__name__" = Some name →
  run_result (import_override (this_module +:+ "." +:+ ns)) = Raise err →
  is_Exception (exn_class err) = true →
  find_module ns = Some (Some f) →
  ∃ w',
    loader ns (VObj m) w = (Raise (reraise ImportError err), w') ∧
    f ∈ closed_files w'.
Proof.
  intros Hm Hname Hrun Hexc Hfind.
  destruct (load_prepare_ok base_attrs PREFIX ns m attrs names name w Hm Hname)
    as (pt & p & w1 & Hprep).
  rewrite (load_unfold _ _ _ _ _ _ _ _ _ _ _ Hprep), Hrun, Hexc.
  unfold import_failed. rewrite Hfind.
  eexists. split; [reflexivity|].
  simpl. apply elem_of_app. right. apply list_elem_of_here.
Qed.
End loader_more.

Section prepare_more.
Variable base_attrs : gmap string pyval.
Variable PREFIX : list string.

(** The instance [__dict__] a new proxy starts with. *)
Lemma new_proxy_run w pt cname cdict m attrs names name :
  heap w !! pt = Some (OClass cname cdict) →
  is_data_descriptor (cdict !! "_introspection_module") = false →
  heap w !! m = Some (OForeign attrs names) →
  attrs !! "__name__" = Some name →
  ∃ w1,
    new_proxy base_attrs pt (VObj m) w = (Ret (fresh (dom (heap w))), w1) ∧
    heap w1 =
      <[fresh (dom (heap w)) :=
          OProxy pt (<["_introspection_module":=VObj m]> (module_dict name ∅))]>
        (heap w) ∧
    sys_modules w1 = sys_modules w ∧
    _deprecated_attrs w1 = _deprecated_attrs w ∧
    warnings_log w1 = warnings_log w.
Proof.
  intros Hpt Hnd Hm Hname. unfold new_proxy.
  set (p := fresh (dom (heap w))).
  assert (Hp : heap w !! p = None) by (apply not_elem_of_dom, is_fresh).
  assert (Hpm : p ≠ m) by (intros Heq; rewrite Heq in Hp; congruence).
  assert (Hppt : p ≠ pt) by (intros Heq; rewrite Heq in Hp; congruence).
  set (wb := set_heap (insert p (OProxy pt ∅)) w).
  assert (Hmb : heap wb !! m = Some (OForeign attrs names))
    by (subst wb; simpl; by rewrite lookup_insert_ne).
  assert (Hpb : heap wb !! p = Some (OProxy pt ∅))
    by (subst wb; simpl; by rewrite lookup_insert_eq).
  set (d1 := module_dict name ∅).
  set (wc := set_heap (<[p := OProxy pt d1]>) wb).
  rewrite (bind_Ret _ _ w p wb) by done.
  unfold OverridesProxyModule_init.
  assert (Hget : getattr base_attrs (VObj m) "__name__" wb = (Ret name, wb)).
  { unfold getattr, recursion_limit.
    rewrite (getattr_rec_foreign _ _ _ _ _ _ _ Hmb). by rewrite Hname. }
  assert (Hinit : ModuleType_init p name wb = (Ret tt, wc)).
  { unfold ModuleType_init.
    by rewrite (bind_Ret _ _ _ _ _ (deref_Some _ _ _ Hpb)). }
  assert (Hset : setattr base_attrs (VObj p) "_introspection_module" (VObj m) wc
                 = (Ret tt, set_heap (<[p := OProxy pt
                      (<["_introspection_module":=VObj m]> d1)]>) wc)).
  { unfold setattr, recursion_limit.
    apply (setattr_rec_instance base_attrs _ _ p pt _ cname cdict).
    - subst wc. simpl. by rewrite lookup_insert_eq.
    - subst wc wb. simpl. by rewrite !lookup_insert_ne.
    - exact Hnd. }
  eexists. split.
  - erewrite bind_Ret; [reflexivity|].
    rewrite (bind_Ret _ _ _ _ _ Hget).
    rewrite (bind_Ret _ _ _ _ _ Hinit).
    exact Hset.
  - subst wc wb. simpl. by rewrite !insert_insert_eq.
Qed.

(** What [load_prepare] leaves behind: a new class without descriptors,
    a new proxy of that class around the module, and the aliases. *)
Lemma load_prepare_run ns m attrs names name w :
  heap w !! m = Some (OForeign attrs names) →
  attrs !! "__name__" = Some name →
  ∃ pt p w1,
    load_prepare base_attrs PREFIX ns (VObj m) w = (Ret (pt, p), w1) ∧
    (∀ prefix, prefix ∈ PREFIX →
       sys_modules w1 !! (prefix +:+ "." +:+ ns) = Some (VObj p)) ∧
    heap w1 !! p =
      Some (OProxy pt (<["_introspection_module":=VObj m]>
                         (module_dict name ∅))) ∧
    heap w1 !! pt =
      Some (OClass (ns +:+ "ProxyModule")
              (<["__module__":=CPlain (VStr this_module)]>
                 (<["__doc__":=CPlain VNone]> ∅))) ∧
    heap w !! p = None ∧ heap w !! pt = None ∧
    (∀ l, l ≠ p → l ≠ pt → heap w1 !! l = heap w !! l) ∧
    _deprecated_attrs w1 = _deprecated_attrs w ∧
    warnings_log w1 = warnings_log w.
Proof.
  intros Hm Hname. unfold load_prepare, new_proxy_type.
  set (cdict := <["__module__":=CPlain (VStr this_module)]>
                  (<["__doc__":=CPlain VNone]> (∅ : gmap string ClassAttr))).
  set (pt := fresh (dom (heap w))).
  assert (Hpt : heap w !! pt = None) by (apply not_elem_of_dom, is_fresh).
  assert (Hptm : pt ≠ m) by (intros Heq; rewrite Heq in Hpt; congruence).
  set (wa := set_heap (insert pt (OClass (ns +:+ "ProxyModule") cdict)) w).
  rewrite (bind_Ret _ _ w pt wa) by done.
  destruct (new_proxy_run wa pt (ns +:+ "ProxyModule") cdict m attrs names name)
    as (w1 & Hnew & Hheap & Hmods & Hreg & Hlog); [| done | | done |].
  { subst wa. simpl. by rewrite lookup_insert_eq. }
  { subst wa. simpl. by rewrite lookup_insert_ne. }
  set (p := fresh (dom (heap wa))) in *.
  assert (Hp : heap wa !! p = None) by (apply not_elem_of_dom, is_fresh).
  assert (Hppt : p ≠ pt).
  { intros Heq. subst wa. simpl in Hp. by rewrite Heq, lookup_insert_eq in Hp. }
  rewrite (bind_Ret _ _ _ _ _ Hnew).
  rewrite (bind_Ret _ _ _ _ _ (register_aliases_run _ _ _ _)).
  exists pt, p. eexists. split; [reflexivity|]. simpl.
  split; [intros prefix Hin; by apply aliases_registered|].
  rewrite Hheap. subst wa. simpl in *.
  split; [by rewrite lookup_insert_eq|].
  split; [rewrite lookup_insert_ne by done; by rewrite lookup_insert_eq|].
  split; [by rewrite lookup_insert_ne in Hp|].
  split; [done|].
  split; [intros l ??; by rewrite !lookup_insert_ne|].
  by rewrite Hreg, Hlog.
Qed.

(** X19. While the override module is imported the namespace already
    resolves to the proxy: every alias in [sys.modules] names one object
    that did not exist before, it answers [__name__] with the name of the
    module, and [get_introspection_module] gives the module back (with
    [pgi.repository] among the prefixes). *)
Theorem load_prepare_registers ns m attrs names name w :
  heap w !! m = Some (OForeign attrs names) →
  attrs !! "__name__" = Some name →
  ∃ pt p w1,
    load_prepare base_attrs PREFIX ns (VObj m) w = (Ret (pt, p), w1) ∧
    heap w !! p = None ∧
    (∀ prefix, prefix ∈ PREFIX →
       sys_modules w1 !! (prefix +:+ "." +:+ ns) = Some (VObj p)) ∧
    getattr base_attrs (VObj p) "__name__" w1 = (Ret name, w1) ∧
    ("pgi.repository" ∈ PREFIX →
       get_introspection_module base_attrs ns w1 = (Ret (VObj m), w1)).
Proof.
  intros Hm Hname.
  destruct (load_prepare_run ns m attrs names name w Hm Hname)
    as (pt & p & w1 & Hprep & Halias & Hp & Hpt & Hpn & Hptn & _).
  exists pt, p, w1.
  split; [exact Hprep|]. split; [exact Hpn|]. split; [exact Halias|].
  split.
  - unfold getattr, recursion_limit.
    apply (getattr_rec_instance _ _ _ _ _ _ _ _ _ _ Hp Hpt); [done|].
    unfold module_dict. rewrite !lookup_insert_ne by done.
    by rewrite lookup_insert_eq.
  - intros Hin. unfold get_introspection_module, bind, gets.
    change ("pgi.repository." +:+ ns) with ("pgi.repository" +:+ "." +:+ ns).
    rewrite (Halias _ Hin). unfold try_except, getattr, recursion_limit.
    rewrite (getattr_rec_instance _ _ _ _ _ _ _ _ _ (VObj m) Hp Hpt); [done..|].
    by rewrite lookup_insert_eq.
Qed.

(** X20. [get_introspection_module]: a namespace that is not in
    [sys.modules] under [pgi.repository] is a [KeyError]; a registered
    module without [_introspection_module] is returned itself; for a
    registered proxy the module it wraps is returned. *)
Theorem get_introspection_module_cases ns w :
  let key := "pgi.repository." +:+ ns in
  (sys_modules w !! key = None →
     get_introspection_module base_attrs ns w
       = (Raise (Exn KeyError [VStr key]), w)) ∧
  (∀ m attrs names,
     sys_modules w !! key = Some (VObj m) →
     heap w !! m = Some (OForeign attrs names) →
     attrs !! "_introspection_module" = None →
     get_introspection_module base_attrs ns w = (Ret (VObj m), w)) ∧
  (∀ p cls dict cname cdict wrapped,
     sys_modules w !! key = Some (VObj p) →
     heap w !! p = Some (OProxy cls dict) →
     heap w !! cls = Some (OClass cname cdict) →
     is_data_descriptor (cdict !! "_introspection_module") = false →
     dict !! "_introspection_module" = Some wrapped →
     get_introspection_module base_attrs ns w = (Ret wrapped, w)).
Proof.
  intros key. unfold get_introspection_module, bind, gets. fold key.
  split; [|split].
  - by intros ->.
  - intros m attrs names -> Hm Hattr.
    unfold try_except, getattr, recursion_limit.
    rewrite (getattr_rec_foreign _ _ _ _ _ _ _ Hm), Hattr. done.
  - intros p cls dict cname cdict wrapped -> Hp Hc Hnd Hdict.
    unfold try_except, getattr, recursion_limit.
    by rewrite (getattr_rec_instance _ _ _ _ _ _ _ _ _ _ Hp Hc Hnd Hdict).
Qed.
End prepare_more.

Section loader_transparent.
Variable base_attrs : gmap string pyval.
Variable PREFIX : list string.
Variable import_override : string → UnitRun.
Variable find_module : string → option (option nat).
Variable reraise : ExcClass → exn → exn.

(** X21. An override module that exports nothing (its [__all__] is
    missing, or empty, or falsy in another way) and registers no
    deprecation, and whose body leaves the objects alone: [load] returns
    a new proxy, and the proxy is transparent: a name that is neither
    an attribute of the proxy class nor one of the entries a new module
    object starts with ([__name__], [__doc__], [__package__],
    [__loader__], [__spec__]) nor [_introspection_module] reads through
    the proxy as on the module. *)
Theorem load_without_exports ns m attrs names name w override_vars :
  heap w !! m = Some (OForeign attrs names) →
  attrs !! "__name__" = Some name →
  run_result (import_override (this_module +:+ "." +:+ ns)) = Ret override_vars →
  truthy (default VNone (override_vars !! "__all__")) = false →
  (∀ w0, heap (run_effect (import_override (this_module +:+ "." +:+ ns)) w0)
           = heap w0) →
  (∀ w0, _deprecated_attrs
           (run_effect (import_override (this_module +:+ "." +:+ ns)) w0) !! ns
           = _deprecated_attrs w0 !! ns) →
  _deprecated_attrs w !! ns = None →
  ∃ p w',
    load base_attrs PREFIX import_override find_module reraise ns (VObj m) w
      = (Ret (VObj p), w') ∧
    heap w !! p = None ∧
    ∀ attr,
      base_attrs !! attr = None →
      attr ≠ "__name__" → attr ≠ "__doc__" → attr ≠ "__module__" →
      attr ≠ "__package__" → attr ≠ "__loader__" → attr ≠ "__spec__" →
      attr ≠ "_introspection_module" →
      getattr base_attrs (VObj p) attr w' = getattr base_attrs (VObj m) attr w'.
Proof.
  intros Hm Hname Hrun Hall Hheap Hreg Hnone.
  destruct (load_prepare_run base_attrs PREFIX ns m attrs names name w Hm Hname)
    as (pt & p & w1 & Hprep & _ & Hp & Hpt & Hpn & Hptn & Hother & Hreg1 & _).
  rewrite (load_unfold _ _ _ _ _ _ _ _ _ _ _ Hprep), Hrun.
  set (w2 := run_effect _ w1).
  assert (Hmerge : merge_override base_attrs ns p pt override_vars w2
                   = (Ret (VObj p), set_deprecated_attrs (delete ns) w2)).
  { unfold merge_override, py_or. rewrite Hall.
    unfold bind, lift, pop_deprecated. cbn [py_iter for_each]. unfold ret.
    subst w2. rewrite Hreg, Hreg1, Hnone. done. }
  exists p, (set_deprecated_attrs (delete ns) w2).
  split; [exact Hmerge|]. split; [exact Hpn|].
  intros attr Hbase Hn1 Hn2 Hn3 Hn4 Hn5 Hn6 Hn7.
  assert (Hw' : heap (set_deprecated_attrs (delete ns) w2) = heap w1)
    by (subst w2; simpl; apply Hheap).
  assert (Hm1 : heap w1 !! m = Some (OForeign attrs names)).
  { rewrite Hother; [done| |]; intros ->; congruence. }
  rewrite <-Hw' in Hp, Hpt, Hm1.
  rewrite (getattr_through_proxy base_attrs _ _ _ _ _ _ _ _ _ attr
             Hp Hpt (lookup_insert_eq _ _ _) eq_refl Hm1).
  - by rewrite (getattr_foreign base_attrs _ _ _ _ attr Hm1).
  - rewrite lookup_insert_ne by done. by rewrite lookup_insert_ne.
  - exact Hbase.
  - unfold module_dict. by rewrite !lookup_insert_ne.
Qed.
End loader_transparent.

(** ** The exports of an override module *)

Lemma string_app_assoc (a b c : string) : (a +:+ b) +:+ c = a +:+ (b +:+ c).
Proof.
  induction a as [|x a IH]; [done|].
  change (String x ((a +:+ b) +:+ c) = String x (a +:+ (b +:+ c))).
  by f_equal.
Qed.

Lemma string_app_nil_r (a : string) : a +:+ EmptyString = a.
Proof.
  induction a as [|x a IH]; [done|].
  change (String x (a +:+ EmptyString) = String x a). by f_equal.
Qed.

Lemma last_segment_from_dotless acc s :
  dotless s = true → last_segment_from acc s = acc +:+ s.
Proof.
  revert acc. induction s as [|c s IH]; intros acc Hs.
  - cbn [last_segment_from]. by rewrite string_app_nil_r.
  - cbn [dotless] in Hs. apply andb_true_iff in Hs as [Hc Hs].
    apply negb_true_iff in Hc. cbn [last_segment_from].
    rewrite Hc, (IH _ Hs). apply string_app_assoc.
Qed.

Lemma last_segment_from_qualified acc pre s :
  last_segment_from acc (pre +:+ "." +:+ s) = last_segment s.
Proof.
  revert acc. induction pre as [|c pre IH]; intros acc.
  - done.
  - change (String c pre +:+ "." +:+ s) with (String c (pre +:+ "." +:+ s)).
    cbn [last_segment_from]. destruct (Ascii.eqb c _); apply IH.
Qed.

(** X22. [s.split(".")[-1]]: of a dotted name it is what follows the
    last dot, whatever comes before; a name without a dot is its own
    last segment. *)
Theorem last_segment_qualified pre ns :
  dotless ns = true →
  last_segment (pre +:+ "." +:+ ns) = ns ∧ last_segment ns = ns.
Proof.
  intros Hns.
  assert (Hself : last_segment ns = ns)
    by (unfold last_segment; by rewrite last_segment_from_dotless).
  split; [|exact Hself].
  unfold last_segment at 1. by rewrite last_segment_from_qualified.
Qed.

Section exports.
Variable base_attrs : gmap string pyval.

Lemma setattr_foreign w l attrs names name v :
  heap w !! l = Some (OForeign attrs names) →
  setattr base_attrs (VObj l) name v w =
    (Ret tt, set_heap (<[l := OForeign (<[name:=v]> attrs) names]>) w).
Proof.
  intros Hl. unfold setattr, recursion_limit. cbn [setattr_rec].
  by rewrite (bind_Ret _ _ _ _ _ (deref_Some _ _ _ Hl)).
Qed.

Lemma setattr_instance w l cls dict cname cdict name v :
  heap w !! l = Some (OProxy cls dict) →
  heap w !! cls = Some (OClass cname cdict) →
  is_data_descriptor (cdict !! name) = false →
  setattr base_attrs (VObj l) name v w =
    (Ret tt, set_heap (<[l := OProxy cls (<[name:=v]> dict)]>) w).
Proof.
  intros Hl Hc Hnd. unfold setattr, recursion_limit.
  exact (setattr_rec_instance base_attrs _ _ _ _ _ _ _ _ _ Hl Hc Hnd).
Qed.

Lemma copy_export_resolved ns p override_vars var item w :
  override_vars !! var = Some item →
  item ≠ VNone →
  copy_export base_attrs ns p override_vars (VStr var) w =
    bind (normalize_module base_attrs ns item)
         (λ _, setattr base_attrs (VObj p) var item) w.
Proof.
  intros Hvar Hitem. unfold copy_export.
  rewrite (bind_Ret _ _ w item w)
    by (unfold lift, vars_get; by rewrite Hvar).
  by destruct item.
Qed.

(** X23. An exported class (an object with a [__module__]) is set on
    the proxy under its name; its [__module__] becomes the namespace
    when the last segment of the old value is the namespace, and stays
    as it is otherwise; no other object changes. *)
Theorem copy_export_class ns p override_vars var c cattrs cnames s
    cls dict cname cdict w :
  override_vars !! var = Some (VObj c) →
  heap w !! c = Some (OForeign cattrs cnames) →
  cattrs !! "__module__" = Some (VStr s) →
  heap w !! p = Some (OProxy cls dict) →
  heap w !! cls = Some (OClass cname cdict) →
  is_data_descriptor (cdict !! var) = false →
  ∃ w',
    copy_export base_attrs ns p override_vars (VStr var) w = (Ret tt, w') ∧
    heap w' !! c =
      Some (OForeign (if String.eqb (last_segment s) ns
                      then <["__module__":=VStr ns]> cattrs
                      else cattrs) cnames) ∧
    heap w' !! p = Some (OProxy cls (<[var:=VObj c]> dict)) ∧
    (∀ l, l ≠ c → l ≠ p → heap w' !! l = heap w !! l).
Proof.
  intros Hvar Hc Hmod Hp Hcls Hnd.
  assert (Hcp : c ≠ p) by (intros ->; congruence).
  assert (Hccls : c ≠ cls) by (intros ->; congruence).
  rewrite (copy_export_resolved _ _ _ _ _ _ Hvar) by done.
  assert (Hnorm : ∃ w1,
    normalize_module base_attrs ns (VObj c) w = (Ret tt, w1) ∧
    heap w1 = <[c := OForeign (if String.eqb (last_segment s) ns
                               then <["__module__":=VStr ns]> cattrs
                               else cattrs) cnames]> (heap w)).
  { unfold normalize_module, try_except.
    rewrite (bind_Ret _ _ _ _ _
               (eq_trans (getattr_foreign base_attrs _ _ _ _ "__module__" Hc)
                         (f_equal (λ o, (o, w))
                            (f_equal (λ a, match a with
                                           | Some v => Ret v
                                           | None => Raise (Exn AttributeError
                                                              [VStr "__module__"])
                                           end) Hmod)))).
    destruct (String.eqb (last_segment s) ns).
    - rewrite (setattr_foreign _ _ _ _ _ _ Hc). eauto.
    - eexists. split; [reflexivity|]. by rewrite insert_id. }
  destruct Hnorm as (w1 & Hnorm & Hheap1).
  rewrite (bind_Ret _ _ _ _ _ Hnorm).
  assert (Hp1 : heap w1 !! p = Some (OProxy cls dict))
    by (rewrite Hheap1; by rewrite lookup_insert_ne).
  assert (Hcls1 : heap w1 !! cls = Some (OClass cname cdict))
    by (rewrite Hheap1; by rewrite lookup_insert_ne).
  rewrite (setattr_instance _ _ _ _ _ _ _ _ Hp1 Hcls1 Hnd).
  eexists. split; [reflexivity|]. simpl. rewrite Hheap1.
  split; [rewrite lookup_insert_ne by done; by rewrite lookup_insert_eq|].
  split; [by rewrite lookup_insert_eq|].
  intros l Hlc Hlp. by rewrite !lookup_insert_ne.
Qed.

(** X24. An exported value that has no [__module__] (a number, a
    string, an object without the attribute) is set on the proxy as it
    is: the [AttributeError] of the lookup is swallowed, and nothing but
    the instance [__dict__] of the proxy changes. *)
Theorem copy_export_plain ns p override_vars var item e cls dict cname cdict w :
  override_vars !! var = Some item →
  item ≠ VNone →
  getattr base_attrs item "__module__" w = (Raise e, w) →
  is_AttributeError e = true →
  heap w !! p = Some (OProxy cls dict) →
  heap w !! cls = Some (OClass cname cdict) →
  is_data_descriptor (cdict !! var) = false →
  copy_export base_attrs ns p override_vars (VStr var) w =
    (Ret tt, set_heap (<[p := OProxy cls (<[var:=item]> dict)]>) w).
Proof.
  intros Hvar Hitem Hget Hattr Hp Hcls Hnd.
  rewrite (copy_export_resolved _ _ _ _ _ _ Hvar Hitem).
  assert (Hnorm : normalize_module base_attrs ns item w = (Ret tt, w)).
  { unfold normalize_module, try_except.
    rewrite (bind_Raise _ _ _ _ _ Hget), Hattr. done. }
  rewrite (bind_Ret _ _ _ _ _ Hnorm).
  exact (setattr_instance _ _ _ _ _ _ _ _ Hp Hcls Hnd).
Qed.
End exports.

(** ** The [override] decorator *)

Section override_facts.
Variable base_attrs : gmap string pyval.
Variable PREFIX : list string.
Variable is_function : pyval → bool.

Lemma getattr_foreign_Some w l attrs names name v :
  heap w !! l = Some (OForeign attrs names) →
  attrs !! name = Some v →
  getattr base_attrs (VObj l) name w = (Ret v, w).
Proof.
  intros Hl Hv. rewrite (getattr_foreign base_attrs _ _ _ _ name Hl).
  by rewrite Hv.
Qed.

(** [override] up to the lookup of the module in [sys.modules]. *)
Lemma override_lookup w k kattrs knames s prefix :
  heap w !! k = Some (OForeign kattrs knames) →
  kattrs !! "__module__" = Some (VStr s) →
  last PREFIX = Some prefix →
  override base_attrs PREFIX is_function (VObj k) w =
    match sys_modules w !! (prefix +:+ "." +:+ last_segment s) with
    | None => (Raise (Exn KeyError [VStr (prefix +:+ "." +:+ last_segment s)]), w)
    | Some module =>
        if is_function (VObj k)
        then (Ret (Wrap (override_wrap base_attrs module (VObj k))), w)
        else
          (mro ←' getattr base_attrs (VObj k) "__mro__";
           old_klass ←' lift (py_getitem mro 1);
           n ←' getattr base_attrs old_klass "__name__";
           match n with
           | VStr name =>
               setattr base_attrs (VObj k) "__name__" n;;
               old_module ←' getattr base_attrs old_klass "__module__";
               setattr base_attrs (VObj k) "__module__" old_module;;
               setattr base_attrs module name (VObj k);;
               ret (Klass (VObj k))
           | _ => raise (Exn TypeError [VStr "__name__ must be a string"])
           end) w
    end.
Proof.
  intros Hk Hmod Hlast. unfold override.
  rewrite (bind_Ret _ _ _ _ _ (getattr_foreign_Some _ _ _ _ _ _ Hk Hmod)).
  rewrite Hlast.
  rewrite (bind_Ret _ _ w (sys_modules w) w) by done.
  destruct (sys_modules w !! _); [|done].
  by destruct (is_function (VObj k)).
Qed.

(** X25. [override] on a class: the class takes the [__name__] and the
    [__module__] of the class it derives from and is set, under that
    name, on the module that the last prefix registers for the namespace,
    which during [load] is the proxy.  The class it replaces and every
    other object stay as they are. *)
Theorem override_class_registers w k kattrs knames s prefix p cls dict
    cname cdict mro o oattrs onames name old_module :
  is_function (VObj k) = false →
  heap w !! k = Some (OForeign kattrs knames) →
  kattrs !! "__module__" = Some (VStr s) →
  last PREFIX = Some prefix →
  sys_modules w !! (prefix +:+ "." +:+ last_segment s) = Some (VObj p) →
  heap w !! p = Some (OProxy cls dict) →
  heap w !! cls = Some (OClass cname cdict) →
  is_data_descriptor (cdict !! name) = false →
  kattrs !! "__mro__" = Some (VTuple mro) →
  mro !! 1%nat = Some (VObj o) →
  o ≠ k →
  heap w !! o = Some (OForeign oattrs onames) →
  oattrs !! "__name__" = Some (VStr name) →
  oattrs !! "__module__" = Some old_module →
  ∃ w',
    override base_attrs PREFIX is_function (VObj k) w
      = (Ret (Klass (VObj k)), w') ∧
    heap w' !! k =
      Some (OForeign (<["__module__":=old_module]>
                        (<["__name__":=VStr name]> kattrs)) knames) ∧
    heap w' !! p = Some (OProxy cls (<[name:=VObj k]> dict)) ∧
    (∀ l, l ≠ k → l ≠ p → heap w' !! l = heap w !! l) ∧
    sys_modules w' = sys_modules w.
Proof.
  intros Hfun Hk Hmod Hlast Hsys Hp Hcls Hnd Hmro Hbase Hok Ho Hname Hom.
  assert (Hpk : p ≠ k) by (intros ->; congruence).
  assert (Hck : cls ≠ k) by (intros ->; congruence).
  rewrite (override_lookup _ _ _ _ _ _ Hk Hmod Hlast), Hsys, Hfun.
  rewrite (bind_Ret _ _ _ _ _ (getattr_foreign_Some _ _ _ _ _ _ Hk Hmro)).
  rewrite (bind_Ret _ _ w (VObj o) w) by (unfold lift, py_getitem; by rewrite Hbase).
  rewrite (bind_Ret _ _ _ _ _ (getattr_foreign_Some _ _ _ _ _ _ Ho Hname)).
  rewrite (bind_Ret _ _ _ _ _ (setattr_foreign base_attrs _ _ _ _ "__name__"
                                 (VStr name) Hk)).
  set (w1 := set_heap _ w).
  assert (Ho1 : heap w1 !! o = Some (OForeign oattrs onames))
    by (subst w1; simpl; by rewrite lookup_insert_ne).
  assert (Hk1 : heap w1 !! k =
                Some (OForeign (<["__name__":=VStr name]> kattrs) knames))
    by (subst w1; simpl; by rewrite lookup_insert_eq).
  rewrite (bind_Ret _ _ _ _ _ (getattr_foreign_Some _ _ _ _ _ _ Ho1 Hom)).
  rewrite (bind_Ret _ _ _ _ _ (setattr_foreign base_attrs _ _ _ _ "__module__"
                                 old_module Hk1)).
  set (w2 := set_heap _ w1).
  assert (Hp2 : heap w2 !! p = Some (OProxy cls dict))
    by (subst w2 w1; simpl; by rewrite !lookup_insert_ne).
  assert (Hcls2 : heap w2 !! cls = Some (OClass cname cdict))
    by (subst w2 w1; simpl; by rewrite !lookup_insert_ne).
  rewrite (bind_Ret _ _ _ _ _ (setattr_instance base_attrs _ _ _ _ _ _ _
                                 (VObj k) Hp2 Hcls2 Hnd)).
  eexists. split; [reflexivity|]. subst w2 w1. simpl.
  split; [rewrite lookup_insert_ne by done; by rewrite lookup_insert_eq|].
  split; [by rewrite lookup_insert_eq|].
  split; [|done].
  intros l Hlk Hlp. by rewrite !lookup_insert_ne.
Qed.

(** X26. [override] on a function changes nothing and returns a
    decorator.  The decorator sets what it is given on the module that
    was registered for the namespace when [override] was called, under
    the [__name__] the function has when the decorator runs, and returns
    it; the registrations of that later state play no part. *)
Theorem override_function_registers w k kattrs knames s prefix module :
  is_function (VObj k) = true →
  heap w !! k = Some (OForeign kattrs knames) →
  kattrs !! "__module__" = Some (VStr s) →
  last PREFIX = Some prefix →
  sys_modules w !! (prefix +:+ "." +:+ last_segment s) = Some (VObj module) →
  ∃ wrap,
    override base_attrs PREFIX is_function (VObj k) w = (Ret (Wrap wrap), w) ∧
    ∀ w2 kattrs2 knames2 name cls dict cname cdict wrapped,
      heap w2 !! k = Some (OForeign kattrs2 knames2) →
      kattrs2 !! "__name__" = Some (VStr name) →
      heap w2 !! module = Some (OProxy cls dict) →
      heap w2 !! cls = Some (OClass cname cdict) →
      is_data_descriptor (cdict !! name) = false →
      wrap wrapped w2 =
        (Ret wrapped,
         set_heap (<[module := OProxy cls (<[name:=wrapped]> dict)]>) w2).
Proof.
  intros Hfun Hk Hmod Hlast Hsys.
  exists (override_wrap base_attrs (VObj module) (VObj k)).
  split.
  - by rewrite (override_lookup _ _ _ _ _ _ Hk Hmod Hlast), Hsys, Hfun.
  - intros w2 kattrs2 knames2 name cls dict cname cdict wrapped
      Hk2 Hname Hp Hcls Hnd.
    unfold override_wrap.
    rewrite (bind_Ret _ _ _ _ _ (getattr_foreign_Some _ _ _ _ _ _ Hk2 Hname)).
    by rewrite (bind_Ret _ _ _ _ _ (setattr_instance base_attrs _ _ _ _ _ _ _
                                     wrapped Hp Hcls Hnd)).
Qed.

(** X27. Outside of [load], when the last prefix registers nothing for
    the namespace of the class or function, [override] raises the
    [KeyError] of the lookup and changes nothing. *)
Theorem override_unregistered w k kattrs knames s prefix :
  heap w !! k = Some (OForeign kattrs knames) →
  kattrs !! "__module__" = Some (VStr s) →
  last PREFIX = Some prefix →
  sys_modules w !! (prefix +:+ "." +:+ last_segment s) = None →
  override base_attrs PREFIX is_function (VObj k) w =
    (Raise (Exn KeyError [VStr (prefix +:+ "." +:+ last_segment s)]), w).
Proof.
  intros Hk Hmod Hlast Hsys.
  by rewrite (override_lookup _ _ _ _ _ _ Hk Hmod Hlast), Hsys.
Qed.
End override_facts.

(** ** The further properties on the sample installation *)

Lemma load_with_override_returns_new_object_witness :
  ∃ p, VObj Sample.proxy = VObj p ∧ heap Sample.world0 !! p = None.
Proof.
  apply (load_with_override_returns_new_object Sample.base_attrs Sample.PREFIX
           Sample.import_override Sample.find_module spec_reraise
           "Gtk" (VObj Sample.gtk) Sample.world0 Sample.gtk_override_vars
           (VObj Sample.proxy) Sample.loaded).
  - reflexivity.
  - vm_compute. reflexivity.
Defined.

Lemma load_base_exception_witness :
  ∃ w',
    load Sample.base_attrs Sample.PREFIX
      (λ _, {| run_effect := λ w, w;
               run_result :=
                 Raise (Exn (OtherBaseException "KeyboardInterrupt") []) |})
      Sample.find_module (λ tp e, Exn tp (exn_args e))
      "Gtk" (VObj Sample.gtk) Sample.world0
    = (Raise (Exn (OtherBaseException "KeyboardInterrupt") []), w').
Proof.
  apply (load_base_exception Sample.base_attrs Sample.PREFIX
           (λ _, {| run_effect := λ w, w;
                    run_result :=
                      Raise (Exn (OtherBaseException "KeyboardInterrupt") []) |})
           Sample.find_module (λ tp e, Exn tp (exn_args e))
           "Gtk" Sample.gtk (foreign_attrs Sample.world0 Sample.gtk)
           Sample.gtk_names (VStr "Gtk") Sample.world0).
  - vm_compute. reflexivity.
  - vm_compute. reflexivity.
  - reflexivity.
  - reflexivity.
Defined.

Lemma load_failure_closes_file_witness :
  ∃ w',
    load Sample.base_attrs Sample.PREFIX Sample.import_override
      Sample.find_module (λ tp e, Exn tp (exn_args e))
      "Broken" (VObj Sample.gtk) Sample.world0
    = (Raise (Exn ImportError [VStr "bad override"]), w') ∧
    4%nat ∈ closed_files w'.
Proof.
  apply (load_failure_closes_file Sample.base_attrs Sample.PREFIX
           Sample.import_override Sample.find_module
           (λ tp e, Exn tp (exn_args e))
           "Broken" Sample.gtk (foreign_attrs Sample.world0 Sample.gtk)
           Sample.gtk_names (VStr "Gtk") Sample.world0 Sample.value_error 4%nat).
  - vm_compute. reflexivity.
  - vm_compute. reflexivity.
  - vm_compute. reflexivity.
  - reflexivity.
  - vm_compute. reflexivity.
Defined.

Lemma load_prepare_registers_witness :
  ∃ pt p w1,
    load_prepare Sample.base_attrs Sample.PREFIX "Gtk" (VObj Sample.gtk)
      Sample.world0 = (Ret (pt, p), w1) ∧
    heap Sample.world0 !! p = None ∧
    (∀ prefix, prefix ∈ Sample.PREFIX →
       sys_modules w1 !! (prefix +:+ "." +:+ "Gtk") = Some (VObj p)) ∧
    getattr Sample.base_attrs (VObj p) "__name__" w1 = (Ret (VStr "Gtk"), w1) ∧
    ("pgi.repository" ∈ Sample.PREFIX →
       get_introspection_module Sample.base_attrs "Gtk" w1
         = (Ret (VObj Sample.gtk), w1)).
Proof.
  apply (load_prepare_registers Sample.base_attrs Sample.PREFIX
           "Gtk" Sample.gtk (foreign_attrs Sample.world0 Sample.gtk)
           Sample.gtk_names (VStr "Gtk") Sample.world0).
  - vm_compute. reflexivity.
  - vm_compute. reflexivity.
Defined.

Lemma get_introspection_module_cases_witness :
  get_introspection_module Sample.base_attrs "Gtk" Sample.world0
    = (Raise (Exn KeyError [VStr "pgi.repository.Gtk"]), Sample.world0) ∧
  get_introspection_module Sample.base_attrs "Gtk" Sample.loaded
    = (Ret (VObj Sample.gtk), Sample.loaded).
Proof.
  split.
  - apply (proj1 (get_introspection_module_cases Sample.base_attrs "Gtk"
                    Sample.world0)).
    vm_compute. reflexivity.
  - apply (proj2 (proj2 (get_introspection_module_cases Sample.base_attrs "Gtk"
                           Sample.loaded))
             Sample.proxy Sample.proxy_type
             (instance_dict Sample.loaded Sample.proxy) "GtkProxyModule"
             (class_dict Sample.loaded Sample.proxy_type) (VObj Sample.gtk));
      vm_compute; reflexivity.
Defined.

Lemma load_without_exports_witness :
  ∃ p w',
    load Sample.base_attrs Sample.PREFIX
      (λ _, {| run_effect := λ w, w; run_result := Ret ∅ |})
      Sample.find_module (λ tp e, Exn tp (exn_args e))
      "Gtk" (VObj Sample.gtk) Sample.world0
    = (Ret (VObj p), w') ∧
    heap Sample.world0 !! p = None ∧
    getattr Sample.base_attrs (VObj p) "main" w'
      = getattr Sample.base_attrs (VObj Sample.gtk) "main" w'.
Proof.
  destruct (load_without_exports Sample.base_attrs Sample.PREFIX
              (λ _, {| run_effect := λ w, w; run_result := Ret ∅ |})
              Sample.find_module (λ tp e, Exn tp (exn_args e))
              "Gtk" Sample.gtk (foreign_attrs Sample.world0 Sample.gtk)
              Sample.gtk_names (VStr "Gtk") Sample.world0 ∅)
    as (p & w' & Hload & Hnew & Hread).
  - vm_compute. reflexivity.
  - vm_compute. reflexivity.
  - reflexivity.
  - reflexivity.
  - intros w0. reflexivity.
  - intros w0. reflexivity.
  - reflexivity.
  - exists p, w'. split; [exact Hload|]. split; [exact Hnew|].
    apply Hread; [vm_compute; reflexivity|discriminate..].
Defined.

Lemma last_segment_qualified_witness :
  last_segment ("pgi.overrides" +:+ "." +:+ "Gtk") = "Gtk" ∧
  last_segment "Gtk" = "Gtk".
Proof. apply (last_segment_qualified "pgi.overrides" "Gtk"). reflexivity. Defined.

Lemma copy_export_class_witness :
  let w := run_effect (Sample.import_override "pgi.overrides.Gtk")
             (load_prepare Sample.base_attrs Sample.PREFIX "Gtk"
                (VObj Sample.gtk) Sample.world0).2 in
  ∃ w',
    copy_export Sample.base_attrs "Gtk" Sample.proxy Sample.gtk_override_vars
      (VStr "Window") w = (Ret tt, w') ∧
    foreign_attrs w' Sample.window_class !! "__module__" = Some (VStr "Gtk") ∧
    instance_dict w' Sample.proxy !! "Window" = Some (VObj Sample.window_class).
Proof.
  intros w.
  destruct (copy_export_class Sample.base_attrs "Gtk" Sample.proxy
              Sample.gtk_override_vars "Window" Sample.window_class
              (foreign_attrs w Sample.window_class) ["__module__"]
              "pgi.overrides.Gtk" Sample.proxy_type
              (instance_dict w Sample.proxy) "GtkProxyModule"
              (class_dict w Sample.proxy_type) w)
    as (w' & Hcopy & Hclass & Hproxy & _).
  - vm_compute. reflexivity.
  - vm_compute. reflexivity.
  - vm_compute. reflexivity.
  - vm_compute. reflexivity.
  - vm_compute. reflexivity.
  - vm_compute. reflexivity.
  - exists w'. split; [exact Hcopy|].
    unfold foreign_attrs, instance_dict. rewrite Hclass, Hproxy.
    split; [|apply lookup_insert_eq].
    change (String.eqb (last_segment "pgi.overrides.Gtk") "Gtk") with true.
    apply lookup_insert_eq.
Defined.

Lemma copy_export_plain_witness :
  let w := run_effect (Sample.import_override "pgi.overrides.Gtk")
             (load_prepare Sample.base_attrs Sample.PREFIX "Gtk"
                (VObj Sample.gtk) Sample.world0).2 in
  copy_export Sample.base_attrs "Gtk" Sample.proxy Sample.gtk_override_vars
    (VStr "OLD_CONST") w =
  (Ret tt,
   set_heap (<[Sample.proxy :=
                 OProxy Sample.proxy_type
                   (<["OLD_CONST":=VInt 42]> (instance_dict w Sample.proxy))]>)
     w).
Proof.
  intros w.
  apply (copy_export_plain Sample.base_attrs "Gtk" Sample.proxy
           Sample.gtk_override_vars "OLD_CONST" (VInt 42)
           (Exn AttributeError [VStr "__module__"]) Sample.proxy_type
           (instance_dict w Sample.proxy) "GtkProxyModule"
           (class_dict w Sample.proxy_type) w).
  - vm_compute. reflexivity.
  - discriminate.
  - vm_compute. reflexivity.
  - reflexivity.
  - vm_compute. reflexivity.
  - vm_compute. reflexivity.
  - vm_compute. reflexivity.
Defined.

Lemma override_class_registers_witness :
  ∃ w',
    override Sample.base_attrs Sample.PREFIX SampleOverride.is_function
      (VObj SampleOverride.new_window) SampleOverride.prepared
      = (Ret (Klass (VObj SampleOverride.new_window)), w') ∧
    foreign_attrs w' SampleOverride.new_window !! "__name__"
      = Some (VStr "Window") ∧
    foreign_attrs w' SampleOverride.new_window !! "__module__"
      = Some (VStr "pgi.repository.Gtk") ∧
    instance_dict w' Sample.proxy !! "Window"
      = Some (VObj SampleOverride.new_window) ∧
    heap w' !! Sample.gtk = heap SampleOverride.prepared !! Sample.gtk.
Proof.
  destruct (override_class_registers Sample.base_attrs Sample.PREFIX
              SampleOverride.is_function SampleOverride.prepared
              SampleOverride.new_window
              (foreign_attrs SampleOverride.prepared SampleOverride.new_window)
              ["__module__"; "__name__"; "__mro__"]
              "pgi.overrides.Gtk" "gi.repository"
              Sample.proxy Sample.proxy_type
              (instance_dict SampleOverride.prepared Sample.proxy)
              "GtkProxyModule"
              (class_dict SampleOverride.prepared Sample.proxy_type)
              [VObj SampleOverride.new_window; VObj SampleOverride.old_window]
              SampleOverride.old_window
              (foreign_attrs SampleOverride.prepared SampleOverride.old_window)
              ["__module__"; "__name__"]
              "Window" (VStr "pgi.repository.Gtk"))
    as (w' & Hrun & Hk & Hp & Hframe & _).
  - reflexivity.
  - vm_compute. reflexivity.
  - vm_compute. reflexivity.
  - reflexivity.
  - vm_compute. reflexivity.
  - vm_compute. reflexivity.
  - vm_compute. reflexivity.
  - vm_compute. reflexivity.
  - vm_compute. reflexivity.
  - reflexivity.
  - discriminate.
  - vm_compute. reflexivity.
  - vm_compute. reflexivity.
  - vm_compute. reflexivity.
  - exists w'. split; [exact Hrun|].
    unfold foreign_attrs at 1 2, instance_dict at 1. rewrite Hk, Hp.
    split; [rewrite lookup_insert_ne by discriminate; apply lookup_insert_eq|].
    split; [apply lookup_insert_eq|].
    split; [apply lookup_insert_eq|].
    apply Hframe; discriminate.
Defined.

Lemma override_function_registers_witness :
  ∃ wrap,
    override Sample.base_attrs Sample.PREFIX SampleOverride.is_function
      (VObj SampleOverride.main_function) SampleOverride.prepared
      = (Ret (Wrap wrap), SampleOverride.prepared) ∧
    wrap (VInt 5) SampleOverride.prepared =
      (Ret (VInt 5),
       set_heap
         (<[Sample.proxy :=
              OProxy Sample.proxy_type
                (<["main":=VInt 5]>
                   (instance_dict SampleOverride.prepared Sample.proxy))]>)
         SampleOverride.prepared).
Proof.
  destruct (override_function_registers Sample.base_attrs Sample.PREFIX
              SampleOverride.is_function SampleOverride.prepared
              SampleOverride.main_function
              (foreign_attrs SampleOverride.prepared
                 SampleOverride.main_function)
              ["__module__"; "__name__"]
              "pgi.overrides.Gtk" "gi.repository" Sample.proxy)
    as (wrap & Hrun & Hwrap).
  - reflexivity.
  - vm_compute. reflexivity.
  - vm_compute. reflexivity.
  - reflexivity.
  - vm_compute. reflexivity.
  - exists wrap. split; [exact Hrun|].
    apply (Hwrap SampleOverride.prepared
             (foreign_attrs SampleOverride.prepared
                SampleOverride.main_function)
             ["__module__"; "__name__"] "main" Sample.proxy_type
             (instance_dict SampleOverride.prepared Sample.proxy)
             "GtkProxyModule"
             (class_dict SampleOverride.prepared Sample.proxy_type) (VInt 5));
      vm_compute; reflexivity.
Defined.

Lemma override_unregistered_witness :
  override Sample.base_attrs ["pgi.repository"; "elsewhere"]
    SampleOverride.is_function (VObj SampleOverride.new_window)
    SampleOverride.prepared
  = (Raise (Exn KeyError [VStr "elsewhere.Gtk"]), SampleOverride.prepared).
Proof.
  apply (override_unregistered Sample.base_attrs ["pgi.repository"; "elsewhere"]
           SampleOverride.is_function SampleOverride.prepared
           SampleOverride.new_window
           (foreign_attrs SampleOverride.prepared SampleOverride.new_window)
           ["__module__"; "__name__"; "__mro__"]
           "pgi.overrides.Gtk" "elsewhere").
  - vm_compute. reflexivity.
  - vm_compute. reflexivity.
  - reflexivity.
  - vm_compute. reflexivity.
Defined.
